(** * Custom cfn-lint rules of the e-commerce platform: a shallow embedding

    Source: [shared/lint/rules/custom_rules.py].  Five rule classes, each with
    a [match(self, cfn)] method that walks the parsed CloudFormation template
    and returns a list of [RuleMatch] records.

    The template is a tree of Python values (dicts, lists, strings, numbers,
    booleans, None).  Python dicts keep insertion order and the order of the
    returned violations follows it, so a dict is an association list here.
    Lookups that Python rejects ([None.get], [str["Ref"]], ...) raise; the
    embedding returns the exception instead of a value. *)

From Stdlib Require Import List String Ascii ZArith Bool Lia Arith.
From Stdlib Require Import DecimalString.
Import ListNotations.
Open Scope string_scope.
Open Scope list_scope.

Set Implicit Arguments.
Set Warnings "-register-all".

(** ** Python values *)

Inductive value : Type :=
| VNone : value
| VBool : bool -> value
| VInt : Z -> value
| VStr : string -> value
| VList : list value -> value
| VDict : list (string * value) -> value.

Definition dict : Type := list (string * value).

(** Exceptions the rules can run into. *)
Inductive exn : Type :=
| AttributeError
| TypeError
| KeyError
| IndexError.

Inductive result (A : Type) : Type :=
| Ok : A -> result A
| Raise : exn -> result A.

Arguments Ok {A} _.
Arguments Raise {A} _.

Definition bind {A B} (r : result A) (k : A -> result B) : result B :=
  match r with
  | Ok a => k a
  | Raise e => Raise e
  end.

Declare Scope py_scope.
Delimit Scope py_scope with py.
Notation "x <- c ;; k" := (bind c (fun x => k))
  (at level 61, c at next level, right associativity) : py_scope.
Open Scope py_scope.

(** [for x in xs: body], threading the loop's local state; the first
    exception leaves the loop. *)
Fixpoint for_each {A S} (xs : list A) (body : S -> A -> result S) (s : S)
  : result S :=
  match xs with
  | [] => Ok s
  | x :: xs' => s' <- body s x ;; for_each xs' body s'
  end.

(** ** Dict and sequence primitives *)

Fixpoint dict_lookup (k : string) (d : dict) : option value :=
  match d with
  | [] => None
  | (k', v) :: d' => if String.eqb k k' then Some v else dict_lookup k d'
  end.

Definition keys (d : dict) : list string := map fst d.

Definition str_in (s : string) (l : list string) : bool :=
  existsb (String.eqb s) l.

(** [d.get(k, default)] on a dict. *)
Definition dict_get (d : dict) (k : string) (default : value) : value :=
  match dict_lookup k d with
  | Some v => v
  | None => default
  end.

(** [v.get(k, default)] on an arbitrary value: only dicts have [get]. *)
Definition py_get (v : value) (k : string) (default : value) : result value :=
  match v with
  | VDict d => Ok (dict_get d k default)
  | _ => Raise AttributeError
  end.

(** [v[k]] with a string key. *)
Definition py_getitem (v : value) (k : string) : result value :=
  match v with
  | VDict d =>
      match dict_lookup k d with
      | Some x => Ok x
      | None => Raise KeyError
      end
  | _ => Raise TypeError
  end.

(** [v[0]].  A dict of the template has string keys only, so [d[0]] is a
    missing key. *)
Definition py_getitem0 (v : value) : result value :=
  match v with
  | VList (x :: _) => Ok x
  | VList [] => Raise IndexError
  | VStr (String c _) => Ok (VStr (String c EmptyString))
  | VStr EmptyString => Raise IndexError
  | VDict _ => Raise KeyError
  | _ => Raise TypeError
  end.

(** The sequence [for x in v] walks through. *)
Definition py_iter (v : value) : result (list value) :=
  match v with
  | VList l => Ok l
  | VDict d => Ok (map VStr (keys d))
  | VStr s => Ok (map (fun c => VStr (String c EmptyString)) (list_ascii_of_string s))
  | _ => Raise TypeError
  end.

(** Python's [==].  [bool] is a subclass of [int]; dicts compare without
    regard to order. *)
Definition num_of (v : value) : option Z :=
  match v with
  | VBool b => Some (if b then 1%Z else 0%Z)
  | VInt z => Some z
  | _ => None
  end.

Fixpoint py_eq (a b : value) {struct a} : bool :=
  match a, b with
  | VNone, VNone => true
  | VStr s, VStr t => String.eqb s t
  | VList l, VList m =>
      (fix go (l m : list value) {struct l} : bool :=
         match l, m with
         | [], [] => true
         | x :: l', y :: m' => py_eq x y && go l' m'
         | _, _ => false
         end) l m
  | VDict d, VDict e =>
      Nat.eqb (List.length d) (List.length e) &&
      (fix go (d : dict) {struct d} : bool :=
         match d with
         | [] => true
         | (k, x) :: d' =>
             match dict_lookup k e with
             | Some y => py_eq x y && go d'
             | None => false
             end
         end) d
  | (VBool _ | VInt _), (VBool _ | VInt _) =>
      match num_of a, num_of b with
      | Some x, Some y => Z.eqb x y
      | _, _ => false
      end
  | _, _ => false
  end.

(** [x in l] for a list [l]. *)
Definition py_in_list (x : value) (l : list value) : bool :=
  existsb (py_eq x) l.

(** [x in d.keys()] and [x in d]: [x] is hashed first. *)
Definition py_in_keys (x : value) (ks : list string) : result bool :=
  match x with
  | VStr s => Ok (str_in s ks)
  | VList _ | VDict _ => Raise TypeError
  | _ => Ok false
  end.

Fixpoint is_prefix (p s : string) : bool :=
  match p, s with
  | EmptyString, _ => true
  | String a p', String b s' => Ascii.eqb a b && is_prefix p' s'
  | String _ _, EmptyString => false
  end.

Fixpoint is_substring (p s : string) : bool :=
  is_prefix p s ||
  match s with
  | EmptyString => false
  | String _ s' => is_substring p s'
  end.

(** [x in c] for an arbitrary container [c]. *)
Definition py_in (x : value) (c : value) : result bool :=
  match c with
  | VDict d => py_in_keys x (keys d)
  | VList l => Ok (py_in_list x l)
  | VStr s =>
      match x with
      | VStr p => Ok (is_substring p s)
      | _ => Raise TypeError
      end
  | _ => Raise TypeError
  end.

Definition is_None (v : value) : bool :=
  match v with
  | VNone => true
  | _ => false
  end.

Definition is_dict (v : value) : bool :=
  match v with
  | VDict _ => true
  | _ => false
  end.

(** ** Text: [str()], [str.format] and the regular expression *)

Open Scope string_scope.

Definition string_of_Z (z : Z) : string :=
  NilZero.string_of_int (Z.to_int z).

Definition dquote : ascii := "034"%char.
Definition squote : ascii := "'"%char.
Definition backslash : ascii := "\"%char.

Definition hex_digit (n : nat) : ascii :=
  nth n (list_ascii_of_string "0123456789abcdef") "0"%char.

(** [str.isprintable] on one character; characters are code points below
    256, which is what Rocq's [ascii] holds. *)
Definition is_printable (c : ascii) : bool :=
  let n := nat_of_ascii c in
  ((32 <=? n)%nat && (n <=? 126)%nat) || ((161 <=? n)%nat && negb (n =? 173)%nat).

Definition repr_char (q c : ascii) : string :=
  if Ascii.eqb c backslash || Ascii.eqb c q then String backslash (String c "")
  else if Ascii.eqb c "009"%char then String backslash "t"
  else if Ascii.eqb c "010"%char then String backslash "n"
  else if Ascii.eqb c "013"%char then String backslash "r"
  else if is_printable c then String c ""
  else
    let n := nat_of_ascii c in
    String backslash (String "x" (String (hex_digit (n / 16)) (String (hex_digit (n mod 16)) ""))).

Definition has_char (c : ascii) (s : string) : bool :=
  existsb (Ascii.eqb c) (list_ascii_of_string s).

Definition repr_str (s : string) : string :=
  let q := if has_char squote s && negb (has_char dquote s) then dquote else squote in
  String q (String.concat "" (map (repr_char q) (list_ascii_of_string s)) ++ String q "")%string.

Fixpoint py_repr (v : value) : string :=
  match v with
  | VNone => "None"
  | VBool true => "True"
  | VBool false => "False"
  | VInt z => string_of_Z z
  | VStr s => repr_str s
  | VList l =>
      "[" ++
      (fix go (l : list value) : string :=
         match l with
         | [] => ""
         | x :: l' =>
             match l' with
             | [] => py_repr x
             | _ :: _ => py_repr x ++ ", " ++ go l'
             end
         end) l ++ "]"
  | VDict d =>
      "{" ++
      (fix go (d : dict) : string :=
         match d with
         | [] => ""
         | (k, x) :: d' =>
             match d' with
             | [] => repr_str k ++ ": " ++ py_repr x
             | _ :: _ => repr_str k ++ ": " ++ py_repr x ++ ", " ++ go d'
             end
         end) d ++ "}"
  end.

(** [str(v)], which is what a [{}] field of [str.format] prints. *)
Definition py_str (v : value) : string :=
  match v with
  | VStr s => s
  | _ => py_repr v
  end.

(** [tpl.format(a, b, ...)] for templates whose only fields are [{}]; the
    templates of this file have exactly as many fields as arguments. *)
Fixpoint format (tpl : string) (args : list string) : string :=
  match tpl with
  | EmptyString => EmptyString
  | String c rest =>
      match c, rest, args with
      | "{"%char, String "}"%char rest', a :: args' => a ++ format rest' args'
      | _, _, _ => String c (format rest args)
      end
  end.

(** The characters before the first closing brace; [None] without one. *)
Fixpoint until_brace (s : string) : option string :=
  match s with
  | EmptyString => None
  | String c s' =>
      if Ascii.eqb c "}"%char then Some EmptyString
      else option_map (String c) (until_brace s')
  end.

(** The pattern [\${(?P<func>[^}]+)}] anchored at the start of [s]; the
    result is the group [func]. *)
Definition match_here (s : string) : option string :=
  match s with
  | String "$"%char (String "{"%char body) =>
      match until_brace body with
      | Some (String c r) => Some (String c r)
      | _ => None
      end
  | _ => None
  end.

(** [re.search(r"\${(?P<func>[^}]+)}", s)]: the leftmost match. *)
Fixpoint search_func (s : string) : option string :=
  match match_here s with
  | Some f => Some f
  | None =>
      match s with
      | EmptyString => None
      | String _ s' => search_func s'
      end
  end.

(** [re.search] wants a string. *)
Definition re_search (v : value) : result (option string) :=
  match v with
  | VStr s => Ok (search_func s)
  | _ => Raise TypeError
  end.

Open Scope list_scope.

(** ** The host linter's template object *)

(** Modelled from the spec: the parsed template handed over by the host
    linter, "a mapping from section name to nested mappings/sequences
    representing Parameters, Resources, and their Properties".  The class
    of [cfn] belongs to cfn-lint, not to this repository. *)
Record Template : Type := {
  Parameters : dict;
  Resources : dict
}.

(** Modelled from the spec: [cfn.get_parameters()], the Parameters mapping
    of the template (cfn-lint's method, not in this repository). *)
Definition get_parameters (cfn : Template) : dict := Parameters cfn.

(** [resource.get("Type", None) in resource_type]. *)
Definition has_type (resource_type : list string) (resource : dict) : bool :=
  py_in_list (dict_get resource "Type" VNone) (map VStr resource_type).

(** Modelled from the spec: the loop of [cfn.get_resources(resource_type)]
    over the Resources mapping (cfn-lint's method, not in this repository):
    it keeps the resources that are mappings and whose Type is one of
    [resource_type], in template order. *)
Fixpoint select_resources (resources : dict) (resource_type : list string)
  : list (string * dict) :=
  match resources with
  | [] => []
  | (k, VDict r) :: rest =>
      if has_type resource_type r
      then (k, r) :: select_resources rest resource_type
      else select_resources rest resource_type
  | _ :: rest => select_resources rest resource_type
  end.

(** Modelled from the spec: [cfn.get_resources(resource_type)] (cfn-lint's
    method, not in this repository); a single type name stands for the
    one-element list.  The result is the [items()] of the returned dict. *)
Definition get_resources (cfn : Template) (resource_type : list string)
  : list (string * dict) :=
  select_resources (Resources cfn) resource_type.

(** [RuleMatch(path, message)] of the host linter. *)
Record RuleMatch : Type := mkRuleMatch {
  path : list string;
  message : string
}.

(** ** Mutable list objects

    [MandatoryParametersRule._mandatory_parameters] is a list object owned by
    the class and shared by every invocation; [list.remove] works in place.
    List objects therefore live in a heap and a variable holds an address. *)

Definition addr : Type := nat.
Definition heap : Type := list (list string).

Definition heap_read (h : heap) (a : addr) : list string := nth a h [].

Definition heap_alloc (h : heap) (l : list string) : addr * heap :=
  (List.length h, h ++ [l]).

Fixpoint heap_write (h : heap) (a : addr) (l : list string) : heap :=
  match h, a with
  | [], _ => []
  | _ :: h', O => l :: h'
  | x :: h', S a' => x :: heap_write h' a' l
  end.

(** [copy.deepcopy(l)] for a list of strings: a new list object with the
    same elements. *)
Definition deepcopy (h : heap) (a : addr) : addr * heap :=
  heap_alloc h (heap_read h a).

Fixpoint remove_first (x : string) (l : list string) : list string :=
  match l with
  | [] => []
  | y :: l' => if String.eqb x y then l' else y :: remove_first x l'
  end.

(** [l.remove(x)], in place. *)
Definition list_remove (h : heap) (a : addr) (x : string) : heap :=
  heap_write h a (remove_first x (heap_read h a)).

(** ** The rules *)

Module MandatoryParametersRule.

(** The address of the class attribute [_mandatory_parameters]. *)
Definition _mandatory_parameters : addr := 0.
Definition _message : string := "Missing parameter '{}'".

(** The heap as the class statement leaves it. *)
Definition class_heap : heap := [["Environment"]].

Definition match_ (cfn : Template) (h : heap)
  : result (list RuleMatch) * heap :=
  let '(mandatory_parameters, h) := deepcopy h _mandatory_parameters in
  let h :=
    fold_left
      (fun h key =>
         if str_in key (heap_read h mandatory_parameters)
         then list_remove h mandatory_parameters key
         else h)
      (keys (get_parameters cfn)) h in
  (Ok (map (fun param => mkRuleMatch ["Parameters"] (format _message [param]))
           (heap_read h mandatory_parameters)),
   h).

End MandatoryParametersRule.

Module Python38Rule.

Definition _runtime : string := "python3.8".
Definition _message : string := "Function is using {} runtime instead of {}".

(** [value.get("Properties").get("Runtime")] *)
Definition runtime_of (val : dict) : result value :=
  py_get (dict_get val "Properties" VNone) "Runtime" VNone.

(** The body of the loop over the functions; the loop's state is
    [matches]. *)
Definition check_function (matches : list RuleMatch) (item : string * dict)
  : result (list RuleMatch) :=
  let '(key, val) := item in
  r <- runtime_of val ;;
  if negb (py_eq r (VStr _runtime)) then
    r' <- runtime_of val ;;
    Ok (matches ++
        [mkRuleMatch ["Resources"; key]
                     (format _message [py_str r'; _runtime])])
  else Ok matches.

Definition match_ (cfn : Template) : result (list RuleMatch) :=
  for_each (get_resources cfn ["AWS::Lambda::Function"]) check_function [].

End Python38Rule.

Module LambdaLogGroupRule.

Definition _message : string :=
  "Function {} does not have a corresponding log group".

(** The body of the loop over the log groups; the loop's state is
    [known]. *)
Definition scan_log_group (known : list string) (resource : dict)
  : result (list string) :=
  has_name <- py_in (VStr "LogGroupName") (dict_get resource "Properties" VNone) ;;
  if negb has_name then Ok known
  else
    log_group_name <- py_get (dict_get resource "Properties" VNone) "LogGroupName" VNone ;;
    no_sub <- (if negb (is_dict log_group_name) then Ok true
               else has_sub <- py_in (VStr "Fn::Sub") log_group_name ;;
                    Ok (negb has_sub)) ;;
    if no_sub then Ok known
    else
      sub <- py_getitem log_group_name "Fn::Sub" ;;
      m <- re_search sub ;;
      match m with
      | Some func => Ok (known ++ [func])
      | None => Ok known
      end.

(** The body of the loop over the function names; the loop's state is
    [matches]. *)
Definition check_function (known : list string) (matches : list RuleMatch)
           (function : string) : result (list RuleMatch) :=
  if negb (str_in function known) then
    Ok (matches ++
        [mkRuleMatch ["Resources"; function] (format _message [function])])
  else Ok matches.

Definition match_ (cfn : Template) : result (list RuleMatch) :=
  let functions := get_resources cfn ["AWS::Lambda::Function"] in
  let log_groups := get_resources cfn ["AWS::Logs::LogGroup"] in
  known <- for_each (map snd log_groups) scan_log_group [] ;;
  for_each (map fst functions) (check_function known) [].

End LambdaLogGroupRule.

(** [resource.get("Properties", {}).get("DestinationConfig", {}).get("OnFailure", None)],
    the test of both rules below. *)
Definition on_failure (resource : dict) : result value :=
  p <- py_get (VDict resource) "Properties" (VDict []) ;;
  d <- py_get p "DestinationConfig" (VDict []) ;;
  py_get d "OnFailure" VNone.

Module LambdaESMDestinationConfig.

Definition _message : string :=
  "Event Source Mapping {} does not have a DestinationConfig with OnFailure destination".

(** The body of the loop over the event source mappings; the loop's
    state is [matches]. *)
Definition check_source (matches : list RuleMatch) (item : string * dict)
  : result (list RuleMatch) :=
  let '(key, resource) := item in
  f <- on_failure resource ;;
  if is_None f then
    Ok (matches ++ [mkRuleMatch ["Resources"; key] (format _message [key])])
  else Ok matches.

Definition match_ (cfn : Template) : result (list RuleMatch) :=
  let sources := get_resources cfn ["AWS::Lambda::EventSourceMapping"] in
  for_each sources check_source [].

End LambdaESMDestinationConfig.

Module LambdaRuleInvokeConfig.

Definition _message : string :=
  "Rule {} does not have a corresponding Event Invoke Config with OnFailure destination".

(** The body of the loop over the invoke configs; the loop's state is
    [invoke_config_functions]. *)
Definition scan_invoke_config (invoke_config_functions : list value)
           (resource : dict) : result (list value) :=
  f <- on_failure resource ;;
  if is_None f then Ok invoke_config_functions
  else
    p <- py_getitem (VDict resource) "Properties" ;;
    n <- py_getitem p "FunctionName" ;;
    r <- py_getitem n "Ref" ;;
    Ok (invoke_config_functions ++ [r]).

(** [target.get("Arn", {}).get("Fn::GetAtt", None)] *)
Definition get_att (target : value) : result value :=
  a <- py_get target "Arn" (VDict []) ;;
  py_get a "Fn::GetAtt" VNone.

(** [target["Arn"]["Fn::GetAtt"][0]] *)
Definition get_att0 (target : value) : result value :=
  a <- py_getitem target "Arn" ;;
  g <- py_getitem a "Fn::GetAtt" ;;
  py_getitem0 g.

(** The body of the loop over the targets of the rule [key]. *)
Definition scan_target (function_names : list string)
           (invoke_config_functions : list value) (key : string)
           (matches : list RuleMatch) (target : value)
  : result (list RuleMatch) :=
  g <- get_att target ;;
  if is_None g then Ok matches
  else
    x <- get_att0 target ;;
    known <- py_in_keys x function_names ;;
    if negb known then Ok matches
    else
      function_name <- get_att0 target ;;
      if negb (py_in_list function_name invoke_config_functions) then
        Ok (matches ++
            [mkRuleMatch ["Resources"; key] (format _message [key])])
      else Ok matches.

(** [resource.get("Properties", {}).get("Targets", [])] as the sequence
    the inner loop walks through. *)
Definition targets_of (resource : dict) : result (list value) :=
  p <- py_get (VDict resource) "Properties" (VDict []) ;;
  t <- py_get p "Targets" (VList []) ;;
  py_iter t.

(** The body of the loop over the rules, with the loop over the targets
    inside; the state of both is [matches]. *)
Definition scan_rule (function_names : list string)
           (invoke_config_functions : list value)
           (matches : list RuleMatch) (item : string * dict)
  : result (list RuleMatch) :=
  let '(key, resource) := item in
  targets <- targets_of resource ;;
  for_each targets
    (scan_target function_names invoke_config_functions key) matches.

Definition match_ (cfn : Template) : result (list RuleMatch) :=
  let function_names := map fst (get_resources cfn ["AWS::Lambda::Function"]) in
  let rules := get_resources cfn ["AWS::Events::Rule"] in
  let invoke_configs := get_resources cfn ["AWS::Lambda::EventInvokeConfig"] in
  invoke_config_functions <-
    for_each (map snd invoke_configs) scan_invoke_config [] ;;
  for_each rules (scan_rule function_names invoke_config_functions) [].

End LambdaRuleInvokeConfig.

(** ** The rules as the host linter runs them *)

Inductive rule : Type :=
| E9000   (* MandatoryParametersRule *)
| E9001   (* Python38Rule *)
| E9002   (* LambdaLogGroupRule *)
| E9003   (* LambdaESMDestinationConfig *)
| E9004.  (* LambdaRuleInvokeConfig *)

(** One invocation of [match] on the heap [h].  Only E9000 touches a list
    object that outlives the call; the lists of the other rules ([matches],
    [known], [invoke_config_functions]) are created by the call itself and
    are the state of their loops. *)
Definition run (r : rule) (cfn : Template) (h : heap)
  : result (list RuleMatch) * heap :=
  match r with
  | E9000 => MandatoryParametersRule.match_ cfn h
  | E9001 => (Python38Rule.match_ cfn, h)
  | E9002 => (LambdaLogGroupRule.match_ cfn, h)
  | E9003 => (LambdaESMDestinationConfig.match_ cfn, h)
  | E9004 => (LambdaRuleInvokeConfig.match_ cfn, h)
  end.

(** ** Vocabulary of the statements *)

(** The call returned, and a violation with path [p] is in the list. *)
Definition reports (r : result (list RuleMatch)) (p : list string) : Prop :=
  match r with
  | Ok ms => In p (map path ms)
  | Raise _ => False
  end.

(** How many violations with path [p] the call returned. *)
Definition count_reports (r : result (list RuleMatch)) (p : list string) : nat :=
  match r with
  | Ok ms => count_occ (list_eq_dec string_dec) (map path ms) p
  | Raise _ => 0
  end.

Definition raises {A} (r : result A) : Prop :=
  match r with
  | Ok _ => False
  | Raise _ => True
  end.

(** A loop body that only appends to its state. *)
Definition appending {A B} (body : list B -> A -> result (list B)) : Prop :=
  forall s x, body s x = (l <- body [] x ;; Ok (s ++ l)).

(** Keys of a Python dict are unique. *)
Definition unique_keys (d : dict) : Prop := NoDup (keys d).

(** The resource [val] has a Properties mapping whose Runtime is [r]
    ([None] when the key is absent). *)
Definition runtime_is (val : dict) (r : value) : Prop :=
  exists p, dict_lookup "Properties" val = Some (VDict p) /\
            dict_get p "Runtime" VNone = r.

(** Properties.DestinationConfig.OnFailure is there and is not None. *)
Definition has_on_failure (resource : dict) : Prop :=
  exists p d v,
    dict_lookup "Properties" resource = Some (VDict p) /\
    dict_lookup "DestinationConfig" p = Some (VDict d) /\
    dict_lookup "OnFailure" d = Some v /\ v <> VNone.

(** Properties.FunctionName.Ref of the resource is [x]. *)
Definition function_ref (resource : dict) (x : value) : Prop :=
  exists p n,
    dict_lookup "Properties" resource = Some (VDict p) /\
    dict_lookup "FunctionName" p = Some (VDict n) /\
    dict_lookup "Ref" n = Some x.

(** The target's Arn is a mapping with an Fn::GetAtt whose first element
    is [x]. *)
Definition target_get_att (target : value) (x : value) : Prop :=
  exists t a g,
    target = VDict t /\
    dict_lookup "Arn" t = Some (VDict a) /\
    dict_lookup "Fn::GetAtt" a = Some g /\
    py_getitem0 g = Ok x.

(** [target] is one of the Targets of the rule resource. *)
Definition rule_target (resource : dict) (target : value) : Prop :=
  exists p ts,
    dict_lookup "Properties" resource = Some (VDict p) /\
    dict_lookup "Targets" p = Some (VList ts) /\
    In target ts.

(** Some EventInvokeConfig with an OnFailure destination refers to [f]. *)
Definition covered_by_invoke_config (cfn : Template) (f : string) : Prop :=
  exists k ic,
    In (k, ic) (get_resources cfn ["AWS::Lambda::EventInvokeConfig"]) /\
    has_on_failure ic /\ function_ref ic (VStr f).

(** The rule resource invokes a function of the template that no
    EventInvokeConfig with an OnFailure destination refers to. *)
Definition invokes_uncovered (cfn : Template) (resource : dict) : Prop :=
  exists target f,
    rule_target resource target /\
    target_get_att target (VStr f) /\
    In f (map fst (get_resources cfn ["AWS::Lambda::Function"])) /\
    ~ covered_by_invoke_config cfn f.

(** The log group's Properties.LogGroupName is a mapping with an Fn::Sub
    string whose first substitution variable is [f]. *)
Definition log_group_for (lg : dict) (f : string) : Prop :=
  exists p n s,
    dict_lookup "Properties" lg = Some (VDict p) /\
    dict_lookup "LogGroupName" p = Some (VDict n) /\
    dict_lookup "Fn::Sub" n = Some (VStr s) /\
    search_func s = Some f.

Definition has_log_group (cfn : Template) (f : string) : Prop :=
  exists k lg,
    In (k, lg) (get_resources cfn ["AWS::Logs::LogGroup"]) /\
    log_group_for lg f.

(** A path into the template as the rules build it. *)
Definition path_into (cfn : Template) (p : list string) : Prop :=
  (exists h rest, p = h :: rest /\ (h = "Parameters" \/ h = "Resources")) /\
  (forall k, nth_error p 1 = Some k -> In k (keys (Resources cfn))).

(** ** The statements about the reported paths *)

(** Python38Rule: one violation for a function on another runtime, none
    for a function on python3.8. *)
Definition python38_claim (cfn : Template) : Prop :=
  forall key val r,
    In (key, val) (get_resources cfn ["AWS::Lambda::Function"]) ->
    runtime_is val r ->
    (r = VStr "python3.8" ->
     count_reports (Python38Rule.match_ cfn) ["Resources"; key] = 0) /\
    (r <> VStr "python3.8" ->
     count_reports (Python38Rule.match_ cfn) ["Resources"; key] = 1).

(** Python38Rule: a function without Runtime is reported, with None in the
    message. *)
Definition python38_none_claim (cfn : Template) : Prop :=
  forall key val p,
    In (key, val) (get_resources cfn ["AWS::Lambda::Function"]) ->
    dict_lookup "Properties" val = Some (VDict p) ->
    dict_lookup "Runtime" p = None ->
    exists ms,
      Python38Rule.match_ cfn = Ok ms /\
      In (mkRuleMatch ["Resources"; key]
                      "Function is using None runtime instead of python3.8") ms.

(** LambdaLogGroupRule: the reported paths are the functions without log
    group. *)
Definition log_group_claim (cfn : Template) : Prop :=
  forall f,
    reports (LambdaLogGroupRule.match_ cfn) ["Resources"; f] <->
    In f (map fst (get_resources cfn ["AWS::Lambda::Function"])) /\
    ~ has_log_group cfn f.

(** LambdaESMDestinationConfig: the reported paths are the event source
    mappings without OnFailure destination. *)
Definition esm_claim (cfn : Template) : Prop :=
  forall key,
    reports (LambdaESMDestinationConfig.match_ cfn) ["Resources"; key] <->
    exists resource,
      In (key, resource) (get_resources cfn ["AWS::Lambda::EventSourceMapping"]) /\
      ~ has_on_failure resource.

(** LambdaRuleInvokeConfig: the reported paths are the rules that invoke
    a function no invoke config with OnFailure refers to. *)
Definition invoke_config_claim (cfn : Template) : Prop :=
  forall key,
    reports (LambdaRuleInvokeConfig.match_ cfn) ["Resources"; key] <->
    exists resource,
      In (key, resource) (get_resources cfn ["AWS::Events::Rule"]) /\
      invokes_uncovered cfn resource.

(** ** What a resource declares, read off the template *)

(** Properties.Runtime of a function, None when there is none. *)
Definition declared_runtime (val : dict) : value :=
  match dict_lookup "Properties" val with
  | Some (VDict p) => dict_get p "Runtime" VNone
  | _ => VNone
  end.

(** Properties.DestinationConfig.OnFailure of a resource, None when there
    is none. *)
Definition declared_on_failure (resource : dict) : value :=
  match dict_lookup "Properties" resource with
  | Some (VDict p) =>
      match dict_lookup "DestinationConfig" p with
      | Some (VDict d) => dict_get d "OnFailure" VNone
      | _ => VNone
      end
  | _ => VNone
  end.

(** A key that is present with a value that is not a mapping. *)
Definition not_a_mapping (d : dict) (k : string) : Prop :=
  exists v, dict_lookup k d = Some v /\ is_dict v = false.

(** The resource type whose logical IDs a rule puts into its paths. *)
Definition reported_type (r : rule) : option string :=
  match r with
  | E9000 => None
  | E9001 => Some "AWS::Lambda::Function"
  | E9002 => Some "AWS::Lambda::Function"
  | E9003 => Some "AWS::Lambda::EventSourceMapping"
  | E9004 => Some "AWS::Events::Rule"
  end.

(** ** Sample templates *)

Module Samples.

Definition resource (ty : string) (props : dict) : value :=
  VDict [("Type", VStr ty); ("Properties", VDict props)].

Definition bare (ty : string) : value :=
  VDict [("Type", VStr ty)].

Definition null_properties (ty : string) : value :=
  VDict [("Type", VStr ty); ("Properties", VNone)].

Definition function (props : dict) : value :=
  resource "AWS::Lambda::Function" props.

Definition get_att (name : string) : value :=
  VDict [("Fn::GetAtt", VList [VStr name; VStr "Arn"])].

Definition events_rule (targets : list value) : value :=
  resource "AWS::Events::Rule" [("Targets", VList targets)].

Definition invoke_config (function_name : value) : value :=
  resource "AWS::Lambda::EventInvokeConfig"
    [("FunctionName", function_name);
     ("DestinationConfig",
      VDict [("OnFailure", VDict [("Destination", get_att "DeadLetterQueue")])])].

Definition template (resources : dict) : Template :=
  {| Parameters := [("Environment", VDict [("Type", VStr "String")])];
     Resources := resources |}.

(** Two functions, one on another runtime. *)
Definition runtimes : Template :=
  template [("Old", function [("Runtime", VStr "python3.6")]);
            ("New", function [("Runtime", VStr "python3.8")])].

(** A function on another runtime next to one without Properties. *)
Definition runtime_and_bare : Template :=
  template [("Old", function [("Runtime", VStr "python3.6")]);
            ("Bare", bare "AWS::Lambda::Function")].

(** A function on another runtime next to one whose Properties are null. *)
Definition runtime_and_null : Template :=
  template [("Old", function [("Runtime", VStr "python3.6")]);
            ("Null", null_properties "AWS::Lambda::Function")].

(** A function whose Properties have no Runtime. *)
Definition no_runtime : Template :=
  template [("Fn", function [("Handler", VStr "main.handler")])].

(** The same next to a function whose Properties are not a mapping. *)
Definition no_runtime_and_list : Template :=
  template [("Fn", function [("Handler", VStr "main.handler")]);
            ("Odd", VDict [("Type", VStr "AWS::Lambda::Function");
                           ("Properties", VList [])])].

Definition log_group (name : value) : value :=
  resource "AWS::Logs::LogGroup" [("LogGroupName", name)].

(** Two functions, a log group for the first one and a log group with a
    generated name. *)
Definition log_groups : Template :=
  template [("Fn", function []);
            ("Other", function []);
            ("FnLogs", log_group (VDict [("Fn::Sub", VStr "/aws/lambda/${Fn}")]));
            ("Logs", resource "AWS::Logs::LogGroup" [("RetentionInDays", VInt 30)])].

(** A function and a log group whose Properties are null. *)
Definition null_log_group : Template :=
  template [("Fn", function []);
            ("Logs", null_properties "AWS::Logs::LogGroup")].

(** A function and a log group without Properties. *)
Definition bare_log_group : Template :=
  template [("Fn", function []);
            ("FnLogs", log_group (VDict [("Fn::Sub", VStr "/aws/lambda/${Fn}")]));
            ("Logs", bare "AWS::Logs::LogGroup")].

Definition mapping (props : dict) : value :=
  resource "AWS::Lambda::EventSourceMapping" props.

(** One mapping without and one with an OnFailure destination. *)
Definition mappings : Template :=
  template [("Plain", mapping [("BatchSize", VInt 10)]);
            ("Safe", mapping [("DestinationConfig",
                               VDict [("OnFailure", VDict [("Destination", get_att "Queue")])])])].

(** A mapping without destination next to one with null Properties. *)
Definition mapping_and_null : Template :=
  template [("Plain", bare "AWS::Lambda::EventSourceMapping");
            ("Null", null_properties "AWS::Lambda::EventSourceMapping")].

(** Two functions behind two rules; only the first function has an
    invoke config. *)
Definition invoked : Template :=
  template [("Fn", function []);
            ("Other", function []);
            ("OnOrder", events_rule [VDict [("Arn", get_att "Fn"); ("Id", VStr "fn")]]);
            ("OnPayment", events_rule [VDict [("Arn", get_att "Fn"); ("Id", VStr "fn")];
                                       VDict [("Arn", get_att "Other"); ("Id", VStr "other")]]);
            ("FnConfig", invoke_config (VDict [("Ref", VStr "Fn")]))].

(** A rule that invokes a function without invoke config, next to a rule
    with null Properties. *)
Definition invoked_and_null : Template :=
  template [("Fn", function []);
            ("OnOrder", events_rule [VDict [("Arn", get_att "Fn"); ("Id", VStr "fn")]]);
            ("Null", null_properties "AWS::Events::Rule")].

(** A rule whose only target is given by a literal ARN. *)
Definition literal_arn : Template :=
  template [("Fn", function []);
            ("OnOrder", events_rule [VDict [("Arn", VStr "arn:aws:sqs:eu-west-1:123456789012:orders");
                                            ("Id", VStr "queue")]])].

(** A rule whose only target is a Ref. *)
Definition ref_arn : Template :=
  template [("Fn", function []);
            ("OnOrder", events_rule [VDict [("Arn", VDict [("Ref", VStr "Topic")]);
                                            ("Id", VStr "topic")]])].

(** An invoke config that names its function by a literal string. *)
Definition literal_function_name : Template :=
  template [("Fn", function []);
            ("FnConfig", invoke_config (VStr "orders-fn"))].

Definition no_parameters : Template :=
  {| Parameters := []; Resources := [] |}.

(** One rule with two targets, both functions without invoke config. *)
Definition fan_out : Template :=
  template [("Fn", function []);
            ("Other", function []);
            ("OnOrder", events_rule [VDict [("Arn", get_att "Fn"); ("Id", VStr "fn")];
                                     VDict [("Arn", get_att "Other"); ("Id", VStr "other")]])].

(** Parameters of a stack of the platform. *)
Definition with_environment : Template :=
  {| Parameters := [("Environment", VDict [("Type", VStr "String")]);
                    ("LogLevel", VDict [("Type", VStr "String")])];
     Resources := [] |}.

End Samples.

(** * Properties *)

(** ** The error monad and the loops *)

Lemma bind_Ok_inv {A B} (r : result A) (k : A -> result B) (b : B) :
  bind r k = Ok b -> exists a, r = Ok a /\ k a = Ok b.
Proof.
  destruct r as [a | e]; simpl; intros H; [eauto | discriminate].
Qed.

Lemma for_each_shift {A B} (body : list B -> A -> result (list B)) :
  appending body ->
  forall xs s, for_each xs body s = (l <- for_each xs body [] ;; Ok (s ++ l)).
Proof.
  intros Hb xs. induction xs as [| x xs IH]; intros s; simpl.
  - now rewrite app_nil_r.
  - rewrite (Hb s x), (Hb [] x).
    destruct (body [] x) as [l | e]; simpl; [| reflexivity].
    rewrite (IH (s ++ l)), (IH l).
    destruct (for_each xs body []) as [l' | e]; simpl; [| reflexivity].
    now rewrite app_assoc.
Qed.

Lemma for_each_appending {A B} (body : list B -> A -> result (list B)) :
  appending body ->
  forall xs s s',
    for_each xs body s = Ok s' <->
    exists ls, Forall2 (fun x l => body [] x = Ok l) xs ls /\ s' = s ++ List.concat ls.
Proof.
  intros Hb xs. induction xs as [| x xs IH]; intros s s'; simpl.
  - split.
    + intros H. injection H as <-. exists []. split; [constructor |].
      simpl. now rewrite app_nil_r.
    + intros (ls & HF & ->). inversion HF; subst. simpl. now rewrite app_nil_r.
  - rewrite (Hb s x). split.
    + intros H. apply bind_Ok_inv in H as (s1 & Hs1 & H).
      apply bind_Ok_inv in Hs1 as (l & Hl & Hs1). injection Hs1 as <-.
      apply IH in H as (ls & HF & ->).
      exists (l :: ls). split; [now constructor |].
      simpl. now rewrite app_assoc.
    + intros (ls & HF & ->). inversion HF as [| ? l ? ls' Hl HF']; subst.
      rewrite Hl. simpl. apply IH. exists ls'. split; [assumption |].
      simpl. now rewrite app_assoc.
Qed.

Lemma Forall2_In_l {A B} (R : A -> B -> Prop) xs ls x :
  Forall2 R xs ls -> In x xs -> exists l, In l ls /\ R x l.
Proof.
  induction 1 as [| y l xs ls Hy HF IH]; simpl; [tauto |].
  intros [<- | Hin]; [eauto |].
  destruct (IH Hin) as (l' & ? & ?). eauto.
Qed.

Lemma Forall2_In_r {A B} (R : A -> B -> Prop) xs ls l :
  Forall2 R xs ls -> In l ls -> exists x, In x xs /\ R x l.
Proof.
  induction 1 as [| y l0 xs ls Hy HF IH]; simpl; [tauto |].
  intros [<- | Hin]; [eauto |].
  destruct (IH Hin) as (x & ? & ?). eauto.
Qed.

(** What an appending loop returns, element by element. *)
Lemma for_each_In {A B} (body : list B -> A -> result (list B)) xs s' b :
  appending body ->
  for_each xs body [] = Ok s' ->
  (In b s' <-> exists x l, In x xs /\ body [] x = Ok l /\ In b l).
Proof.
  intros Hb H. apply (for_each_appending Hb) in H as (ls & HF & ->). simpl.
  rewrite in_concat. split.
  - intros (l & Hl & Hbl). destruct (Forall2_In_r _ HF Hl) as (x & ? & ?). eauto.
  - intros (x & l & Hx & Hl & Hbl).
    destruct (Forall2_In_l _ HF Hx) as (l' & Hl' & Hxl').
    rewrite Hl in Hxl'. injection Hxl' as <-. eauto.
Qed.

(** A loop that returned ran its body on every element. *)
Lemma for_each_all_Ok {A B} (body : list B -> A -> result (list B)) xs s' x :
  appending body ->
  for_each xs body [] = Ok s' -> In x xs -> exists l, body [] x = Ok l.
Proof.
  intros Hb H Hx. apply (for_each_appending Hb) in H as (ls & HF & _).
  destruct (Forall2_In_l _ HF Hx) as (l & _ & ?). eauto.
Qed.

(** A loop whose body succeeds on every element returns. *)
Lemma for_each_returns {A B} (body : list B -> A -> result (list B)) xs :
  appending body ->
  (forall x, In x xs -> exists l, body [] x = Ok l) ->
  exists s', for_each xs body [] = Ok s'.
Proof.
  intros Hb. induction xs as [| x xs IH]; intros H; simpl; [eauto |].
  destruct (H x (or_introl eq_refl)) as (l & Hl). rewrite Hl. simpl.
  destruct IH as (s' & Hs'); [intros; apply H; now right |].
  rewrite (for_each_shift Hb), Hs'. simpl. eauto.
Qed.

(** ** Dicts, equality and the host's resource selection *)

Lemma str_in_iff (s : string) (l : list string) :
  str_in s l = true <-> In s l.
Proof.
  unfold str_in. rewrite existsb_exists. split.
  - intros (x & Hx & He). apply String.eqb_eq in He. now subst.
  - intros H. exists s. split; [assumption | apply String.eqb_refl].
Qed.

Lemma dict_lookup_In (k : string) (d : dict) (v : value) :
  dict_lookup k d = Some v -> In (k, v) d.
Proof.
  induction d as [| [k' v'] d IH]; simpl; [discriminate |].
  destruct (String.eqb k k') eqn:E.
  - apply String.eqb_eq in E. subst. intros H. injection H as ->. now left.
  - intros H. right. auto.
Qed.

Lemma dict_lookup_None (k : string) (d : dict) :
  dict_lookup k d = None <-> ~ In k (keys d).
Proof.
  induction d as [| [k' v'] d IH]; simpl; [tauto |].
  destruct (String.eqb k k') eqn:E.
  - apply String.eqb_eq in E. subst. split; [discriminate | tauto].
  - apply String.eqb_neq in E. rewrite IH. split; [| tauto].
    intros H [Hk | Hk]; [congruence | tauto].
Qed.

Lemma dict_get_dict (d : dict) (k : string) (p : dict) :
  dict_get d k VNone = VDict p <-> dict_lookup k d = Some (VDict p).
Proof.
  unfold dict_get. destruct (dict_lookup k d) as [v |]; split; congruence.
Qed.

Lemma py_eq_str_l (s : string) (v : value) :
  py_eq (VStr s) v = true <-> v = VStr s.
Proof.
  destruct v; simpl; split; try discriminate.
  - intros H. apply String.eqb_eq in H. now subst.
  - intros H. injection H as ->. apply String.eqb_refl.
Qed.

Lemma py_eq_str_r (v : value) (s : string) :
  py_eq v (VStr s) = true <-> v = VStr s.
Proof.
  destruct v; simpl; split; try discriminate.
  - intros H. apply String.eqb_eq in H. now subst.
  - intros H. injection H as ->. apply String.eqb_refl.
Qed.

Lemma py_in_list_str (s : string) (l : list value) :
  py_in_list (VStr s) l = true <-> In (VStr s) l.
Proof.
  unfold py_in_list. rewrite existsb_exists. split.
  - intros (v & Hv & He). apply py_eq_str_l in He. now subst.
  - intros H. exists (VStr s). split; [assumption | now apply py_eq_str_l].
Qed.

Lemma is_None_iff (v : value) : is_None v = true <-> v = VNone.
Proof. destruct v; simpl; split; congruence. Qed.

Lemma select_resources_In (d : dict) (ty : list string) (k : string) (r : dict) :
  In (k, r) (select_resources d ty) ->
  In (k, VDict r) d /\ has_type ty r = true.
Proof.
  induction d as [| [k' v] d IH]; simpl; [tauto |].
  destruct v; try (intros H; destruct (IH H); tauto).
  destruct (has_type ty l) eqn:E.
  - intros [H | H].
    + injection H as -> ->. tauto.
    + destruct (IH H). tauto.
  - intros H. destruct (IH H). tauto.
Qed.

Lemma select_resources_keys (d : dict) (ty : list string) (k : string) :
  In k (map fst (select_resources d ty)) -> In k (keys d).
Proof.
  intros H. apply in_map_iff in H as ([k' r] & <- & H).
  apply select_resources_In in H as [H _].
  unfold keys. apply in_map_iff. now exists (k', VDict r).
Qed.

Lemma select_resources_NoDup (d : dict) (ty : list string) :
  unique_keys d -> NoDup (map fst (select_resources d ty)).
Proof.
  unfold unique_keys. induction d as [| [k v] d IH]; simpl; intros H.
  - constructor.
  - inversion H as [| ? ? Hk Hd]; subst.
    destruct v; auto.
    destruct (has_type ty l); auto.
    simpl. constructor; auto.
    intros Hin. apply Hk. eapply select_resources_keys; eauto.
Qed.

Lemma get_resources_key (cfn : Template) (ty : list string) (k : string) (r : dict) :
  In (k, r) (get_resources cfn ty) -> In k (keys (Resources cfn)).
Proof.
  intros H. apply (select_resources_keys (Resources cfn) ty).
  apply in_map_iff. now exists (k, r).
Qed.

(** ** MandatoryParametersRule and the heap *)

Lemma heap_read_last (hp : heap) (x : list string) :
  heap_read (hp ++ [x]) (List.length hp) = x.
Proof. unfold heap_read. apply nth_middle. Qed.

Lemma heap_write_last (hp : heap) (x y : list string) :
  heap_write (hp ++ [x]) (List.length hp) y = hp ++ [y].
Proof. induction hp as [| z hp IH]; simpl; [reflexivity | now rewrite IH]. Qed.

(** The removals of the loop work on the copy only. *)
Lemma remove_loop_on_copy (ks : list string) (hp : heap) (x : list string) :
  fold_left
    (fun h key =>
       if str_in key (heap_read h (List.length hp))
       then list_remove h (List.length hp) key
       else h)
    ks (hp ++ [x])
  = hp ++ [fold_left (fun mp key => if str_in key mp then remove_first key mp else mp) ks x].
Proof.
  revert x. induction ks as [| k ks IH]; intros x; simpl; [reflexivity |].
  rewrite heap_read_last. destruct (str_in k x).
  - unfold list_remove. rewrite heap_read_last, heap_write_last. apply IH.
  - apply IH.
Qed.

Lemma mandatory_match_unfold (cfn : Template) (required : list string) (h : heap) :
  MandatoryParametersRule.match_ cfn (required :: h) =
  let left_over :=
    fold_left (fun mp key => if str_in key mp then remove_first key mp else mp)
              (keys (get_parameters cfn)) required in
  (Ok (map (fun param =>
              mkRuleMatch ["Parameters"]
                          (format MandatoryParametersRule._message [param]))
           left_over),
   (required :: h) ++ [left_over]).
Proof.
  unfold MandatoryParametersRule.match_, deepcopy, heap_alloc.
  change (heap_read (required :: h) MandatoryParametersRule._mandatory_parameters)
    with required.
  rewrite (remove_loop_on_copy _ (required :: h) required).
  rewrite heap_read_last. reflexivity.
Qed.

Lemma remove_loop_nil (ks : list string) :
  fold_left (fun mp key => if str_in key mp then remove_first key mp else mp) ks []
  = [].
Proof. induction ks; simpl; auto. Qed.

Lemma remove_loop_single (name : string) (ks : list string) :
  fold_left (fun mp key => if str_in key mp then remove_first key mp else mp)
            ks [name]
  = if str_in name ks then [] else [name].
Proof.
  induction ks as [| k ks IH]; simpl; [reflexivity |].
  rewrite (String.eqb_sym k name).
  destruct (String.eqb name k); simpl.
  - apply remove_loop_nil.
  - assumption.
Qed.

(** C6.  For every template, MandatoryParametersRule.match returns one
    violation with path ["Parameters"] and message "Missing parameter
    'Environment'" when "Environment", the only required name, is not a key
    of the Parameters section, and the empty list when it is.  The class
    attribute holds ["Environment"]; the rest of the heap is arbitrary. *)
Theorem mandatory_parameters_match (cfn : Template) (h : heap) :
  fst (MandatoryParametersRule.match_ cfn (["Environment"] :: h)) =
  Ok (if str_in "Environment" (keys (Parameters cfn))
      then []
      else [mkRuleMatch ["Parameters"] "Missing parameter 'Environment'"]).
Proof.
  rewrite mandatory_match_unfold. cbv zeta. unfold fst.
  rewrite remove_loop_single. unfold get_parameters.
  destruct (str_in "Environment" (keys (Parameters cfn))); reflexivity.
Qed.

Example mandatory_parameters_missing :
  fst (MandatoryParametersRule.match_ Samples.no_parameters
         MandatoryParametersRule.class_heap)
  = Ok [mkRuleMatch ["Parameters"] "Missing parameter 'Environment'"].
Proof. reflexivity. Qed.

Example mandatory_parameters_present :
  fst (MandatoryParametersRule.match_ Samples.runtimes
         MandatoryParametersRule.class_heap)
  = Ok [].
Proof. reflexivity. Qed.

Lemma run_heap (r : rule) (cfn : Template) (required : list string) (h : heap) :
  exists l, snd (run r cfn (required :: h)) = required :: (h ++ l).
Proof.
  destruct r; cbn [run snd]; try (exists []; now rewrite app_nil_r).
  rewrite mandatory_match_unfold. cbv zeta. cbn [snd].
  rewrite <- app_comm_cons. eauto.
Qed.

Lemma run_ignores_tail (r : rule) (cfn : Template) (required : list string)
      (h h' : heap) :
  fst (run r cfn (required :: h)) = fst (run r cfn (required :: h')).
Proof.
  destruct r; cbn [run fst]; try reflexivity.
  now rewrite !mandatory_match_unfold.
Qed.

(** C7.  Every rule's match is a function of the template snapshot alone:
    an invocation leaves every list object that existed before it as it
    was, the class attribute [_mandatory_parameters] among them (the
    removals of MandatoryParametersRule go to the deep copy), and whatever
    rule runs afterwards, on whatever template, returns what it would have
    returned without the first invocation; so two invocations of one rule
    on equal snapshots return equal lists.  The template is a value the
    rules only read. *)
Theorem match_is_pure (r r' : rule) (cfn cfn' : Template)
        (required : list string) (h : heap) :
  let h0 := required :: h in
  let h1 := snd (run r cfn h0) in
  firstn (List.length h0) h1 = h0 /\
  heap_read h1 MandatoryParametersRule._mandatory_parameters = required /\
  fst (run r' cfn' h1) = fst (run r' cfn' h0) /\
  fst (run r cfn h1) = fst (run r cfn h0).
Proof.
  cbv zeta. destruct (run_heap r cfn required h) as (l & ->).
  repeat split.
  - change (required :: h ++ l) with ((required :: h) ++ l).
    rewrite firstn_app, Nat.sub_diag, firstn_all. simpl. now rewrite app_nil_r.
  - apply run_ignores_tail.
  - apply run_ignores_tail.
Qed.

(** ** Python38Rule *)

Lemma python38_body_appending : appending Python38Rule.check_function.
Proof.
  intros s [key val]. unfold Python38Rule.check_function.
  destruct (Python38Rule.runtime_of val) as [r | e]; simpl; [| reflexivity].
  destruct (negb (py_eq r (VStr Python38Rule._runtime))); simpl;
    now rewrite ?app_nil_r.
Qed.

Lemma runtime_of_Ok (val : dict) (r : value) :
  Python38Rule.runtime_of val = Ok r <-> runtime_is val r.
Proof.
  unfold Python38Rule.runtime_of, runtime_is, py_get. split.
  - destruct (dict_get val "Properties" VNone) as [| | | | | p] eqn:E;
      try discriminate.
    intros H. injection H as <-. exists p. split; [| reflexivity].
    now apply dict_get_dict.
  - intros (p & Hp & <-). apply dict_get_dict in Hp. now rewrite Hp.
Qed.

Lemma python38_step (key : string) (val : dict) (r : value) :
  runtime_is val r ->
  Python38Rule.check_function [] (key, val) =
  Ok (if py_eq r (VStr "python3.8") then []
      else [mkRuleMatch ["Resources"; key]
                        (format Python38Rule._message [py_str r; "python3.8"])]).
Proof.
  intros H. apply runtime_of_Ok in H. unfold Python38Rule.check_function.
  rewrite H. simpl bind. unfold Python38Rule._runtime.
  destruct (py_eq r (VStr "python3.8")); reflexivity.
Qed.

(** Python38Rule.match returns exactly when every function has a
    Properties mapping. *)
Lemma python38_returns_iff (cfn : Template) :
  ~ raises (Python38Rule.match_ cfn) <->
  (forall key val,
      In (key, val) (get_resources cfn ["AWS::Lambda::Function"]) ->
      exists r, runtime_is val r).
Proof.
  unfold Python38Rule.match_. split.
  - intros H key val Hin.
    destruct (for_each _ _ _) as [ms | e] eqn:E; [| now destruct H].
    destruct (for_each_all_Ok _ _ python38_body_appending E Hin) as (l & Hl).
    unfold Python38Rule.check_function in Hl.
    destruct (Python38Rule.runtime_of val) as [r | e] eqn:Er; [| discriminate].
    exists r. now apply runtime_of_Ok.
  - intros H.
    destruct (for_each_returns (body := Python38Rule.check_function)
                (get_resources cfn ["AWS::Lambda::Function"])
                python38_body_appending) as (ms & ->); [| simpl; tauto].
    intros [key val] Hin. destruct (H key val Hin) as (r & Hr).
    rewrite (python38_step key Hr). eauto.
Qed.

Lemma count_single (k key msg : string) :
  count_occ (list_eq_dec string_dec)
            (map path [mkRuleMatch ["Resources"; k] msg]) ["Resources"; key]
  = if String.eqb k key then 1 else 0.
Proof.
  change (map path [mkRuleMatch ["Resources"; k] msg]) with [["Resources"; k]].
  destruct (String.eqb_spec k key) as [-> | Hne].
  - now rewrite count_occ_cons_eq.
  - rewrite count_occ_cons_neq; [reflexivity | congruence].
Qed.

Lemma python38_step_other (k key : string) (v : dict) (l : list RuleMatch) :
  Python38Rule.check_function [] (k, v) = Ok l ->
  k <> key ->
  count_occ (list_eq_dec string_dec) (map path l) ["Resources"; key] = 0.
Proof.
  unfold Python38Rule.check_function. intros Hl Hne.
  destruct (Python38Rule.runtime_of v) as [r | e]; [| discriminate].
  cbn [bind] in Hl.
  destruct (negb (py_eq r (VStr Python38Rule._runtime)));
    injection Hl as <-; [| reflexivity].
  cbn [app]. rewrite count_single.
  apply String.eqb_neq in Hne. now rewrite Hne.
Qed.

Lemma python38_count_absent (xs : list (string * dict)) (ls : list (list RuleMatch))
      (key : string) :
  Forall2 (fun x l => Python38Rule.check_function [] x = Ok l) xs ls ->
  ~ In key (map fst xs) ->
  count_occ (list_eq_dec string_dec) (map path (List.concat ls)) ["Resources"; key] = 0.
Proof.
  induction 1 as [| [k v] l xs ls Hl HF IH]; cbn [map fst List.concat In];
    intros Hk; [reflexivity |].
  rewrite map_app, count_occ_app, IH by tauto.
  rewrite (python38_step_other (key := key) _ Hl); [reflexivity | tauto].
Qed.

Lemma python38_count (xs : list (string * dict)) (ls : list (list RuleMatch))
      (key : string) (val : dict) (r : value) :
  Forall2 (fun x l => Python38Rule.check_function [] x = Ok l) xs ls ->
  NoDup (map fst xs) ->
  In (key, val) xs ->
  runtime_is val r ->
  count_occ (list_eq_dec string_dec) (map path (List.concat ls)) ["Resources"; key]
  = if py_eq r (VStr "python3.8") then 0 else 1.
Proof.
  induction 1 as [| [k v] l xs ls Hl HF IH]; cbn [map fst List.concat In];
    intros Hnd Hin Hr; [tauto |].
  inversion Hnd as [| ? ? Hk Hnd']; subst.
  rewrite map_app, count_occ_app.
  destruct Hin as [Hin | Hin].
  - injection Hin as -> ->.
    rewrite (python38_count_absent key HF Hk), Nat.add_0_r.
    rewrite (python38_step key Hr) in Hl. injection Hl as <-.
    destruct (py_eq r (VStr "python3.8")); [reflexivity |].
    rewrite count_single. now rewrite String.eqb_refl.
  - rewrite (IH Hnd' Hin Hr).
    rewrite (python38_step_other (key := key) _ Hl); [reflexivity |].
    intros ->. apply Hk. apply in_map_iff. now exists (key, val).
Qed.

(** C1, as amended.  For every template on which Python38Rule.match
    returns, the result holds exactly one violation with path
    ["Resources", key] for each AWS::Lambda::Function resource [key] whose
    Properties mapping has a Runtime (None when absent) different from
    "python3.8", and none for a function whose Runtime is "python3.8". *)
Theorem python38_match (cfn : Template) :
  unique_keys (Resources cfn) ->
  ~ raises (Python38Rule.match_ cfn) ->
  python38_claim cfn.
Proof.
  intros Hu Hr key val r Hin Hrt.
  unfold count_reports. unfold Python38Rule.match_ in *.
  destruct (for_each _ _ _) as [ms | e] eqn:E; [| now destruct Hr].
  apply (for_each_appending python38_body_appending) in E as (ls & HF & ->).
  simpl app.
  erewrite python38_count;
    [| exact HF | apply select_resources_NoDup; exact Hu | exact Hin | exact Hrt].
  split; intros H.
  - apply py_eq_str_r in H. now rewrite H.
  - destruct (py_eq r (VStr "python3.8")) eqn:Ep; [| reflexivity].
    apply py_eq_str_r in Ep. contradiction.
Qed.

Ltac solve_unique_keys :=
  unfold unique_keys; cbn; repeat constructor; cbn; intuition discriminate.

Lemma python38_match_witness :
  unique_keys (Resources Samples.runtimes) /\
  ~ raises (Python38Rule.match_ Samples.runtimes) /\
  python38_claim Samples.runtimes.
Proof.
  assert (unique_keys (Resources Samples.runtimes)) as Hu by solve_unique_keys.
  assert (~ raises (Python38Rule.match_ Samples.runtimes)) as Hr
      by (vm_compute; tauto).
  split; [exact Hu | split; [exact Hr |]].
  exact (python38_match Samples.runtimes Hu Hr).
Defined.

(** C1, as stated, fails: next to a function whose Properties are null the
    call raises AttributeError, and the function on python3.6 is not
    reported. *)
Lemma python38_null_properties_counterexample :
  unique_keys (Resources Samples.runtime_and_null) /\
  Python38Rule.match_ Samples.runtime_and_null = Raise AttributeError /\
  ~ python38_claim Samples.runtime_and_null.
Proof.
  split; [solve_unique_keys | split; [reflexivity |]].
  intros H.
  destruct (H "Old"
              [("Type", VStr "AWS::Lambda::Function");
               ("Properties", VDict [("Runtime", VStr "python3.6")])]
              (VStr "python3.6")) as [_ H1].
  - cbn. now left.
  - exists [("Runtime", VStr "python3.6")]. split; reflexivity.
  - assert (VStr "python3.6" <> VStr "python3.8") as Hne by discriminate.
    specialize (H1 Hne). vm_compute in H1. discriminate.
Qed.

(** C9, as amended.  For every template on which Python38Rule.match
    returns, an AWS::Lambda::Function resource whose Properties mapping has
    no "Runtime" key is reported with the message "Function is using None
    runtime instead of python3.8". *)
Theorem python38_missing_runtime (cfn : Template) :
  ~ raises (Python38Rule.match_ cfn) ->
  python38_none_claim cfn.
Proof.
  intros Hr key val p Hin Hp Hrun.
  unfold Python38Rule.match_ in *.
  destruct (for_each _ _ _) as [ms | e] eqn:E; [| now destruct Hr].
  exists ms. split; [reflexivity |].
  apply (for_each_appending python38_body_appending) in E as (ls & HF & ->).
  destruct (Forall2_In_l _ HF Hin) as (l & Hl & Hstep).
  assert (runtime_is val VNone) as Hnone.
  { exists p. split; [assumption |]. unfold dict_get. now rewrite Hrun. }
  rewrite (python38_step key Hnone) in Hstep. injection Hstep as <-.
  cbn [app]. apply in_concat. eexists. split; [exact Hl |]. now left.
Qed.

Lemma python38_missing_runtime_witness :
  ~ raises (Python38Rule.match_ Samples.no_runtime) /\
  python38_none_claim Samples.no_runtime.
Proof.
  assert (~ raises (Python38Rule.match_ Samples.no_runtime)) as Hr
      by (vm_compute; tauto).
  split; [exact Hr |].
  exact (python38_missing_runtime Samples.no_runtime Hr).
Defined.

(** C9, as stated, fails: next to a function whose Properties are a list
    the call raises AttributeError, and the function without Runtime is not
    reported. *)
Lemma python38_missing_runtime_counterexample :
  Python38Rule.match_ Samples.no_runtime_and_list = Raise AttributeError /\
  ~ python38_none_claim Samples.no_runtime_and_list.
Proof.
  split; [reflexivity |].
  intros H.
  destruct (H "Fn"
              [("Type", VStr "AWS::Lambda::Function");
               ("Properties", VDict [("Handler", VStr "main.handler")])]
              [("Handler", VStr "main.handler")]) as (ms & Hms & _).
  - cbn. now left.
  - reflexivity.
  - reflexivity.
  - vm_compute in Hms. discriminate.
Qed.

(** ** The OnFailure lookup *)

Lemma dict_get_default_dict (d : dict) (k : string) (p : dict) :
  dict_get d k (VDict []) = VDict p ->
  dict_lookup k d = Some (VDict p) \/ (dict_lookup k d = None /\ p = []).
Proof.
  unfold dict_get. destruct (dict_lookup k d) as [v |].
  - intros ->. now left.
  - intros H. injection H as <-. now right.
Qed.

(** When the lookup goes through, it yields None exactly when there is no
    OnFailure destination. *)
Lemma on_failure_None (resource : dict) (v : value) :
  on_failure resource = Ok v ->
  (v = VNone <-> ~ has_on_failure resource).
Proof.
  unfold on_failure, has_on_failure. cbn [py_get bind].
  destruct (dict_get resource "Properties" (VDict [])) as [| | | | | p] eqn:Ep;
    try discriminate.
  cbn [py_get bind].
  destruct (dict_get p "DestinationConfig" (VDict [])) as [| | | | | d] eqn:Ed;
    try discriminate.
  cbn [py_get]. intros H. injection H as <-.
  apply dict_get_default_dict in Ep, Ed.
  split.
  - intros Hv (p' & d' & v' & Hp' & Hd' & Hv' & Hne).
    destruct Ep as [Ep | [Ep _]]; [| congruence].
    assert (p' = p) as -> by congruence.
    destruct Ed as [Ed | [Ed _]]; [| congruence].
    assert (d' = d) as -> by congruence.
    unfold dict_get in Hv. rewrite Hv' in Hv. contradiction.
  - intros Hno.
    destruct (dict_get d "OnFailure" VNone) eqn:Ev; [reflexivity | exfalso ..];
      apply Hno;
      (destruct Ep as [Ep | [_ ->]];
       [| cbn in Ed; destruct Ed as [Ed | [_ ->]]; discriminate]);
      (destruct Ed as [Ed | [_ ->]]; [| discriminate]);
      unfold dict_get in Ev;
      (destruct (dict_lookup "OnFailure" d) as [v' |] eqn:El; [| discriminate]);
      subst v'; do 3 eexists; repeat split; eauto; discriminate.
Qed.

Lemma on_failure_found (resource : dict) (v : value) :
  on_failure resource = Ok v -> v <> VNone -> has_on_failure resource.
Proof.
  unfold on_failure, has_on_failure. cbn [py_get bind].
  destruct (dict_get resource "Properties" (VDict [])) as [| | | | | p] eqn:Ep;
    try discriminate.
  cbn [py_get bind].
  destruct (dict_get p "DestinationConfig" (VDict [])) as [| | | | | d] eqn:Ed;
    try discriminate.
  cbn [py_get]. intros H Hne. injection H as <-.
  unfold dict_get in Hne.
  destruct (dict_lookup "OnFailure" d) as [w |] eqn:Ew; [| contradiction].
  apply dict_get_default_dict in Ep, Ed.
  destruct Ed as [Ed | [_ ->]]; [| discriminate].
  destruct Ep as [Ep | [_ ->]]; [| discriminate].
  exists p, d, w. auto.
Qed.

(** The lookup goes through when Properties and DestinationConfig, where
    present, are mappings. *)
Lemma on_failure_returns (resource : dict) :
  (exists p, dict_get resource "Properties" (VDict []) = VDict p /\
             exists d, dict_get p "DestinationConfig" (VDict []) = VDict d) ->
  exists v, on_failure resource = Ok v.
Proof.
  intros (p & Hp & d & Hd). unfold on_failure. cbn [py_get bind].
  rewrite Hp. cbn [py_get bind]. rewrite Hd. cbn [py_get]. eauto.
Qed.

(** ** LambdaESMDestinationConfig *)

Lemma esm_body_appending : appending LambdaESMDestinationConfig.check_source.
Proof.
  intros s [key resource]. unfold LambdaESMDestinationConfig.check_source.
  destruct (on_failure resource) as [f | e]; simpl; [| reflexivity].
  destruct (is_None f); simpl; now rewrite ?app_nil_r.
Qed.

Lemma esm_step (key : string) (resource : dict) (l : list RuleMatch) :
  LambdaESMDestinationConfig.check_source [] (key, resource) = Ok l ->
  forall k, In ["Resources"; k] (map path l) <->
            k = key /\ ~ has_on_failure resource.
Proof.
  unfold LambdaESMDestinationConfig.check_source.
  destruct (on_failure resource) as [f | e] eqn:Ef; [| discriminate].
  cbn [bind]. pose proof (on_failure_None _ Ef) as Hf.
  destruct (is_None f) eqn:En; intros H; injection H as <-; intros k; cbn.
  - apply is_None_iff in En. split.
    + intros [H | []]. injection H as <-. tauto.
    + intros [-> _]. now left.
  - split; [tauto |]. intros [_ Hno]. apply Hf in Hno.
    apply is_None_iff in Hno. congruence.
Qed.

(** C5, as amended.  For every template on which
    LambdaESMDestinationConfig.match returns, the result holds a violation
    with path ["Resources", key] exactly for the
    AWS::Lambda::EventSourceMapping resources [key] whose
    Properties.DestinationConfig.OnFailure is missing or None. *)
Theorem esm_match (cfn : Template) :
  ~ raises (LambdaESMDestinationConfig.match_ cfn) ->
  esm_claim cfn.
Proof.
  intros Hr key. unfold reports.
  unfold LambdaESMDestinationConfig.match_ in *.
  destruct (for_each _ _ _) as [ms | e] eqn:E; [| now destruct Hr].
  rewrite in_map_iff. split.
  - intros (m & Hp & Hm).
    apply (for_each_In _ m esm_body_appending E) in Hm
      as ([k resource] & l & Hin & Hl & Hml).
    assert (In ["Resources"; key] (map path l)) as Hkl.
    { apply in_map_iff. eauto. }
    apply (esm_step _ _ Hl) in Hkl as [-> Hno]. eauto.
  - intros (resource & Hin & Hno).
    destruct (for_each_all_Ok _ _ esm_body_appending E Hin) as (l & Hl).
    assert (In ["Resources"; key] (map path l)) as Hkl.
    { apply (esm_step _ _ Hl). tauto. }
    apply in_map_iff in Hkl as (m & Hp & Hm).
    exists m. split; [assumption |].
    apply (for_each_In _ m esm_body_appending E). eauto.
Qed.

Lemma esm_match_witness :
  ~ raises (LambdaESMDestinationConfig.match_ Samples.mappings) /\
  esm_claim Samples.mappings.
Proof.
  assert (~ raises (LambdaESMDestinationConfig.match_ Samples.mappings)) as Hr
      by (vm_compute; tauto).
  split; [exact Hr |].
  exact (esm_match Samples.mappings Hr).
Defined.

(** C5, as stated, fails: next to an event source mapping whose Properties
    are null the call raises AttributeError, and the mapping without
    Properties is not reported. *)
Lemma esm_null_properties_counterexample :
  LambdaESMDestinationConfig.match_ Samples.mapping_and_null = Raise AttributeError /\
  ~ esm_claim Samples.mapping_and_null.
Proof.
  split; [reflexivity |].
  intros H. specialize (H "Plain"). destruct H as [_ H].
  apply H. exists [("Type", VStr "AWS::Lambda::EventSourceMapping")]. split.
  - cbn. now left.
  - intros (p & d & v & Hp & _). discriminate.
Qed.

(** ** The substitution pattern *)

Lemma until_brace_spec (s v : string) :
  until_brace s = Some v ->
  has_char "}"%char v = false /\
  exists post, s = (v ++ String "}"%char post)%string.
Proof.
  revert v. induction s as [| c s IH]; cbn [until_brace]; intros v;
    [discriminate |].
  destruct (Ascii.eqb c "}"%char) eqn:Ec.
  - apply Ascii.eqb_eq in Ec. subst c. intros H. injection H as <-.
    split; [reflexivity |]. now exists s.
  - destruct (until_brace s) as [v' |]; [| discriminate].
    intros H. injection H as <-.
    destruct (IH v' eq_refl) as (Hv' & post & ->).
    split.
    + unfold has_char in *. cbn [list_ascii_of_string existsb].
      rewrite Ascii.eqb_sym, Ec. exact Hv'.
    + now exists post.
Qed.

Lemma match_here_spec (s f : string) :
  match_here s = Some f ->
  f <> EmptyString /\ has_char "}"%char f = false /\
  exists post, s = ("${" ++ f ++ String "}"%char post)%string.
Proof.
  unfold match_here.
  destruct s as [| c1 [| c2 body]]; try discriminate;
    try (destruct c1 as [[] [] [] [] [] [] [] []]; discriminate).
  destruct (Ascii.eqb_spec c1 "$"%char) as [-> | Hc1].
  2:{ destruct c1 as [[] [] [] [] [] [] [] []]; try discriminate.
      now contradiction Hc1. }
  destruct (Ascii.eqb_spec c2 "{"%char) as [-> | Hc2].
  2:{ destruct c2 as [[] [] [] [] [] [] [] []]; try discriminate.
      now contradiction Hc2. }
  destruct (until_brace body) as [[| c r] |] eqn:Eb; try discriminate.
  intros H. injection H as <-.
  destruct (until_brace_spec _ Eb) as (Hno & post & ->).
  split; [discriminate |]. split; [exact Hno |]. now exists post.
Qed.

(** The variable [re.search] finds sits in the first place of the string
    where the pattern matches: it is not empty, holds no closing brace and
    stands between "${" and "}". *)
Lemma search_func_spec (s f : string) :
  search_func s = Some f ->
  f <> EmptyString /\ has_char "}"%char f = false /\
  exists pre post,
    s = (pre ++ "${" ++ f ++ String "}"%char post)%string /\
    forall a b, pre = (a ++ b)%string -> b <> EmptyString ->
                match_here (b ++ "${" ++ f ++ String "}"%char post)%string = None.
Proof.
  induction s as [| c s IH]; cbn [search_func].
  - cbn. discriminate.
  - destruct (match_here (String c s)) as [g |] eqn:Eh.
    + intros H. injection H as ->.
      destruct (match_here_spec _ Eh) as (Hne & Hno & post & Hs).
      split; [exact Hne |]. split; [exact Hno |].
      exists EmptyString, post. split; [exact Hs |].
      intros a b Hab Hb. destruct a; cbn in Hab; [congruence | discriminate].
    + intros H. destruct (IH H) as (Hne & Hno & pre & post & -> & Hleft).
      split; [exact Hne |]. split; [exact Hno |].
      exists (String c pre), post. split; [reflexivity |].
      intros a b Hab Hb. destruct a as [| c' a]; cbn in Hab.
      * subst b. exact Eh.
      * injection Hab as -> ->. now apply (Hleft a b).
Qed.

Example search_func_log_group :
  search_func "/aws/lambda/${CreateOrderFunction}" = Some "CreateOrderFunction".
Proof. reflexivity. Qed.

Example search_func_first_variable :
  search_func "/aws/lambda/${AWS::StackName}-${Fn}" = Some "AWS::StackName".
Proof. reflexivity. Qed.

Example search_func_empty_braces :
  search_func "${}-${Fn}" = Some "Fn".
Proof. reflexivity. Qed.

Example search_func_unclosed :
  search_func "/aws/lambda/${Fn" = None.
Proof. reflexivity. Qed.

(** ** LambdaLogGroupRule *)

Lemma str_in_keys_lookup (k : string) (d : dict) :
  str_in k (keys d) = true <-> exists v, dict_lookup k d = Some v.
Proof.
  rewrite str_in_iff. split.
  - intros H. destruct (dict_lookup k d) as [v |] eqn:E; [eauto |].
    apply dict_lookup_None in E. contradiction.
  - intros (v & Hv) . apply dict_lookup_In in Hv.
    unfold keys. apply in_map_iff. now exists (k, v).
Qed.

Lemma scan_log_group_appending : appending LambdaLogGroupRule.scan_log_group.
Proof.
  intros s lg. unfold LambdaLogGroupRule.scan_log_group.
  destruct (py_in _ _) as [b | e]; simpl; [| reflexivity].
  destruct b; simpl; [| now rewrite app_nil_r].
  destruct (py_get _ _ _) as [n | e]; simpl; [| reflexivity].
  destruct (if negb (is_dict n) then _ else _) as [b | e]; simpl; [| reflexivity].
  destruct b; simpl; [now rewrite app_nil_r |].
  destruct (py_getitem n "Fn::Sub") as [sub | e]; simpl; [| reflexivity].
  destruct (re_search sub) as [[f |] | e]; simpl; now rewrite ?app_nil_r.
Qed.

(** What one log group adds to [known]. *)
Lemma scan_log_group_Ok (lg : dict) (l : list string) :
  LambdaLogGroupRule.scan_log_group [] lg = Ok l ->
  forall f, In f l <-> log_group_for lg f.
Proof.
  unfold LambdaLogGroupRule.scan_log_group, log_group_for.
  destruct (dict_get lg "Properties" VNone) as [| | | s0 | l0 | p] eqn:Ep;
    cbn [py_in bind]; try discriminate.
  - (* Properties is a string *)
    destruct (is_substring "LogGroupName" s0); cbn [negb py_get bind];
      [discriminate |].
    intros H f. injection H as <-. split; [intros [] |].
    intros (p & n & s & Hp & _). apply dict_get_dict in Hp. congruence.
  - (* Properties is a list *)
    destruct (py_in_list _ l0); cbn [negb py_get bind]; [discriminate |].
    intros H f. injection H as <-. split; [intros [] |].
    intros (p & n & s & Hp & _). apply dict_get_dict in Hp. congruence.
  - (* Properties is a mapping *)
    apply dict_get_dict in Ep. cbn [py_in_keys bind].
    destruct (str_in "LogGroupName" (keys p)) eqn:Ek; cbn [negb].
    2:{ intros H f. injection H as <-. split; [intros [] |].
        intros (p' & n & s & Hp & Hn & _).
        assert (p' = p) as -> by congruence.
        assert (str_in "LogGroupName" (keys p) = true) as Hk
            by (apply str_in_keys_lookup; eauto).
        congruence. }
    apply str_in_keys_lookup in Ek as (lgn & Hlgn).
    assert (dict_get p "LogGroupName" VNone = lgn) as Hg
        by (unfold dict_get; now rewrite Hlgn).
    cbn [py_get bind]. rewrite !Hg. clear Hg.
    destruct lgn as [| b0 | z0 | s0 | l0 | n];
      try (cbn [is_dict negb bind]; intros H f; injection H as <-;
           split; [intros [] |];
           intros (p' & n & s & Hp & Hn & _); congruence).
    cbn [is_dict negb py_in py_in_keys bind].
    destruct (str_in "Fn::Sub" (keys n)) eqn:Es; cbn [negb].
    2:{ intros H f. injection H as <-. split; [intros [] |].
        intros (p' & n' & s & Hp & Hn & Hs & _).
        assert (p' = p) as -> by congruence.
        assert (n' = n) as -> by congruence.
        assert (str_in "Fn::Sub" (keys n) = true) as Hk
            by (apply str_in_keys_lookup; eauto).
        congruence. }
    apply str_in_keys_lookup in Es as (sub & Hsub).
    cbn [py_getitem]. rewrite Hsub. cbn [bind].
    destruct sub as [| | | s | |]; cbn [re_search bind]; try discriminate.
    destruct (search_func s) as [func |] eqn:Ef; intros H f; injection H as <-.
    + cbn [app In]. split.
      * intros [<- | []]. exists p, n, s. auto.
      * intros (p' & n' & s' & Hp & Hn & Hs & Hf).
        left. congruence.
    + split; [intros [] |].
      intros (p' & n' & s' & Hp & Hn & Hs & Hf). congruence.
Qed.

Lemma log_group_check_appending (known : list string) :
  appending (LambdaLogGroupRule.check_function known).
Proof.
  intros s f. unfold LambdaLogGroupRule.check_function.
  destruct (negb (str_in f known)); simpl; now rewrite ?app_nil_r.
Qed.

(** C4, as amended.  For every template on which LambdaLogGroupRule.match
    returns, the result holds a violation with path ["Resources", f]
    exactly for the AWS::Lambda::Function logical IDs [f] for which no
    AWS::Logs::LogGroup resource has a Properties.LogGroupName that is a
    mapping with an "Fn::Sub" string whose first substitution variable is
    [f]. *)
Theorem log_group_match (cfn : Template) :
  ~ raises (LambdaLogGroupRule.match_ cfn) ->
  log_group_claim cfn.
Proof.
  intros Hr f. unfold reports.
  unfold LambdaLogGroupRule.match_ in *. cbv zeta in *.
  destruct (for_each (map snd _) _ _) as [known | e] eqn:Ek; [| now destruct Hr].
  cbn [bind] in *.
  assert (In f known <-> has_log_group cfn f) as Hknown.
  { rewrite (for_each_In _ f scan_log_group_appending Ek). unfold has_log_group.
    split.
    - intros (lg & l & Hin & Hl & Hf).
      apply in_map_iff in Hin as ([k lg'] & <- & Hin).
      exists k, lg'. split; [assumption |].
      now apply (scan_log_group_Ok _ Hl).
    - intros (k & lg & Hin & Hf).
      assert (In lg (map snd (get_resources cfn ["AWS::Logs::LogGroup"]))) as Hlg.
      { apply in_map_iff. now exists (k, lg). }
      destruct (for_each_all_Ok _ _ scan_log_group_appending Ek Hlg) as (l & Hl).
      exists lg, l. repeat split; try assumption.
      now apply (scan_log_group_Ok _ Hl). }
  destruct (for_each (map fst _) _ _) as [ms | e] eqn:Em; [| now destruct Hr].
  rewrite in_map_iff. split.
  - intros (m & Hp & Hm).
    apply (for_each_In _ m (log_group_check_appending known) Em) in Hm
      as (g & l & Hin & Hl & Hml).
    unfold LambdaLogGroupRule.check_function in Hl.
    destruct (str_in g known) eqn:Eg; cbn [negb] in Hl; injection Hl as <-;
      [destruct Hml |].
    destruct Hml as [<- | []]. cbn [path] in Hp. injection Hp as ->.
    split; [assumption |].
    rewrite <- Hknown, <- str_in_iff. congruence.
  - intros (Hin & Hno).
    exists (mkRuleMatch ["Resources"; f]
                        (format LambdaLogGroupRule._message [f])).
    split; [reflexivity |].
    apply (for_each_In _ _ (log_group_check_appending known) Em).
    exists f. eexists. split; [exact Hin |]. split.
    + unfold LambdaLogGroupRule.check_function.
      assert (str_in f known = false) as ->.
      { destruct (str_in f known) eqn:Eg; [| reflexivity].
        apply str_in_iff in Eg. tauto. }
      reflexivity.
    + now left.
Qed.

Lemma log_group_match_witness :
  ~ raises (LambdaLogGroupRule.match_ Samples.log_groups) /\
  log_group_claim Samples.log_groups.
Proof.
  assert (~ raises (LambdaLogGroupRule.match_ Samples.log_groups)) as Hr
      by (vm_compute; tauto).
  split; [exact Hr |].
  exact (log_group_match Samples.log_groups Hr).
Defined.

(** C4, as stated, fails: with a log group whose Properties are null the
    call raises TypeError, and the function without log group is not
    reported. *)
Lemma log_group_null_properties_counterexample :
  LambdaLogGroupRule.match_ Samples.null_log_group = Raise TypeError /\
  ~ log_group_claim Samples.null_log_group.
Proof.
  split; [reflexivity |].
  intros H. specialize (H "Fn"). destruct H as [_ H].
  apply H. split.
  - cbn. now left.
  - intros (k & lg & Hin & p & n & s & Hp & _).
    cbn in Hin. destruct Hin as [Hin | []]. injection Hin as <- <-.
    discriminate.
Qed.

(** ** LambdaRuleInvokeConfig *)

Lemma py_getitem_Ok (v : value) (k : string) (x : value) :
  py_getitem v k = Ok x <-> exists d, v = VDict d /\ dict_lookup k d = Some x.
Proof.
  unfold py_getitem. split.
  - destruct v as [| | | | | d]; try discriminate.
    destruct (dict_lookup k d) as [y |] eqn:E; [| discriminate].
    intros H. injection H as <-. eauto.
  - intros (d & -> & ->). reflexivity.
Qed.

Lemma scan_invoke_config_appending :
  appending LambdaRuleInvokeConfig.scan_invoke_config.
Proof.
  intros s ic. unfold LambdaRuleInvokeConfig.scan_invoke_config.
  destruct (on_failure ic) as [f | e]; simpl; [| reflexivity].
  destruct (is_None f); simpl; [now rewrite app_nil_r |].
  destruct (dict_lookup "Properties" ic) as [p |]; simpl; [| reflexivity].
  destruct (py_getitem p "FunctionName") as [n | e]; simpl; [| reflexivity].
  destruct (py_getitem n "Ref") as [r | e]; simpl; reflexivity.
Qed.

(** What one invoke config adds to [invoke_config_functions]. *)
Lemma scan_invoke_config_Ok (ic : dict) (l : list value) :
  LambdaRuleInvokeConfig.scan_invoke_config [] ic = Ok l ->
  forall x, In x l <-> has_on_failure ic /\ function_ref ic x.
Proof.
  unfold LambdaRuleInvokeConfig.scan_invoke_config.
  destruct (on_failure ic) as [f | e] eqn:Ef; [| discriminate].
  cbn [bind]. pose proof (on_failure_None _ Ef) as Hf.
  destruct (is_None f) eqn:En.
  - apply is_None_iff in En. intros H x. injection H as <-.
    split; [intros [] |]. intros [Hon _]. now apply Hf in En.
  - assert (has_on_failure ic) as Hon.
    { apply (on_failure_found _ Ef). intros ->. discriminate. }
    intros H x.
    apply bind_Ok_inv in H as (p & Hp & H).
    apply bind_Ok_inv in H as (n & Hn & H).
    apply bind_Ok_inv in H as (r & Hr & H). injection H as <-.
    apply py_getitem_Ok in Hp as (ic' & Hic & Hp). injection Hic as <-.
    apply py_getitem_Ok in Hn as (pd & -> & Hn).
    apply py_getitem_Ok in Hr as (nd & -> & Hr).
    cbn [app In]. unfold function_ref. split.
    + intros [<- | []]. split; [assumption |]. exists pd, nd. auto.
    + intros [_ (p' & n' & Hp' & Hn' & Hr')]. left. congruence.
Qed.

(** [target["Arn"]["Fn::GetAtt"][0]] in terms of the template. *)
Lemma get_att0_Ok (target x : value) :
  LambdaRuleInvokeConfig.get_att0 target = Ok x <-> target_get_att target x.
Proof.
  unfold LambdaRuleInvokeConfig.get_att0, target_get_att. split.
  - intros H.
    apply bind_Ok_inv in H as (a & Ha & H).
    apply bind_Ok_inv in H as (g & Hg & H).
    apply py_getitem_Ok in Ha as (t & -> & Ha).
    apply py_getitem_Ok in Hg as (ad & -> & Hg).
    exists t, ad, g. auto.
  - intros (t & a & g & -> & Ha & Hg & H0).
    cbn [py_getitem]. rewrite Ha. cbn [bind py_getitem]. rewrite Hg. exact H0.
Qed.

Lemma target_get_att_unique (target x y : value) :
  target_get_att target x -> target_get_att target y -> x = y.
Proof.
  intros Hx Hy. apply get_att0_Ok in Hx, Hy. congruence.
Qed.

Lemma scan_target_appending (fn : list string) (icf : list value) (key : string) :
  appending (LambdaRuleInvokeConfig.scan_target fn icf key).
Proof.
  intros s target. unfold LambdaRuleInvokeConfig.scan_target.
  destruct (LambdaRuleInvokeConfig.get_att target) as [g | e]; simpl;
    [| reflexivity].
  destruct (is_None g); simpl; [now rewrite app_nil_r |].
  destruct (LambdaRuleInvokeConfig.get_att0 target) as [x | e]; simpl;
    [| reflexivity].
  destruct (py_in_keys x fn) as [b | e]; simpl; [| reflexivity].
  destruct b; simpl; [| now rewrite app_nil_r].
  destruct (negb (py_in_list x icf)); simpl; now rewrite ?app_nil_r.
Qed.

(** A target whose lookup yields None has no Fn::GetAtt to index. *)
Lemma get_att_None (target : value) :
  LambdaRuleInvokeConfig.get_att target = Ok VNone ->
  forall x, ~ target_get_att target x.
Proof.
  unfold LambdaRuleInvokeConfig.get_att.
  intros H x (t & a & g & -> & Ha & Hg & H0).
  cbn [py_get bind] in H. unfold dict_get in H. rewrite Ha in H.
  cbn [py_get bind] in H. unfold dict_get in H. rewrite Hg in H.
  injection H as ->. discriminate.
Qed.

(** What one target adds to [matches]. *)
Lemma scan_target_Ok (fn : list string) (icf : list value) (key : string)
      (target : value) (l : list RuleMatch) :
  LambdaRuleInvokeConfig.scan_target fn icf key [] target = Ok l ->
  forall k,
    In ["Resources"; k] (map path l) <->
    k = key /\
    exists f, target_get_att target (VStr f) /\ In f fn /\ ~ In (VStr f) icf.
Proof.
  unfold LambdaRuleInvokeConfig.scan_target.
  destruct (LambdaRuleInvokeConfig.get_att target) as [g | e] eqn:Eg;
    [| discriminate].
  cbn [bind]. destruct (is_None g) eqn:En.
  { apply is_None_iff in En. subst g. intros H k. injection H as <-.
    split; [intros [] |]. intros [_ (f & Hf & _)].
    exact (get_att_None Eg Hf). }
  destruct (LambdaRuleInvokeConfig.get_att0 target) as [x | e] eqn:Ex;
    [| discriminate].
  cbn [bind]. apply get_att0_Ok in Ex.
  destruct (py_in_keys x fn) as [b | e] eqn:Eb; [| discriminate].
  cbn [bind]. destruct b; cbn [negb].
  2:{ intros H k. injection H as <-. split; [intros [] |].
      intros [_ (f & Hf & Hin & _)].
      rewrite (target_get_att_unique Ex Hf) in Eb. cbn in Eb.
      apply str_in_iff in Hin. congruence. }
  destruct x as [| | | s | |]; try discriminate.
  cbn in Eb. injection Eb as Eb. apply str_in_iff in Eb.
  destruct (py_in_list (VStr s) icf) eqn:Ei; cbn [negb];
    intros H k; injection H as <-.
  - apply py_in_list_str in Ei. split; [intros [] |].
    intros [_ (f & Hf & _ & Hno)].
    pose proof (target_get_att_unique Ex Hf) as E. injection E as ->. tauto.
  - cbn. split.
    + intros [H | []]. injection H as <-. split; [reflexivity |].
      exists s. repeat split; try assumption.
      intros Hin. apply py_in_list_str in Hin. congruence.
    + intros [-> _]. now left.
Qed.

(** The sequence the inner loop walks through, as far as mappings go. *)
Lemma targets_of_Ok (resource : dict) (targets : list value) (t : dict) :
  LambdaRuleInvokeConfig.targets_of resource = Ok targets ->
  (In (VDict t) targets <-> rule_target resource (VDict t)).
Proof.
  unfold LambdaRuleInvokeConfig.targets_of, rule_target. cbn [py_get bind].
  destruct (dict_get resource "Properties" (VDict [])) as [| | | | | p] eqn:Ep;
    try discriminate.
  cbn [py_get bind]. apply dict_get_default_dict in Ep.
  destruct (dict_get p "Targets" (VList [])) as [| | | s | ts | d] eqn:Et;
    try discriminate; cbn [py_iter]; intros H; injection H as <-.
  - (* a string: its characters *)
    split.
    + intros H. apply in_map_iff in H as (c & Hc & _). discriminate.
    + intros (p' & ts & Hp & Hts & _).
      destruct Ep as [Ep | [Ep _]]; [| congruence].
      assert (p' = p) as -> by congruence.
      unfold dict_get in Et. rewrite Hts in Et. discriminate.
  - (* a list *)
    split.
    + intros Hin.
      unfold dict_get in Et.
      destruct (dict_lookup "Targets" p) as [v |] eqn:El.
      2:{ injection Et as <-. destruct Hin. }
      subst v. destruct Ep as [Ep | [_ ->]]; [| discriminate].
      exists p, ts. auto.
    + intros (p' & ts' & Hp & Hts & Hin).
      destruct Ep as [Ep | [Ep _]]; [| congruence].
      assert (p' = p) as -> by congruence.
      unfold dict_get in Et. rewrite Hts in Et. injection Et as <-. assumption.
  - (* a mapping: its keys *)
    split.
    + intros H. apply in_map_iff in H as (c & Hc & _). discriminate.
    + intros (p' & ts & Hp & Hts & _).
      destruct Ep as [Ep | [Ep _]]; [| congruence].
      assert (p' = p) as -> by congruence.
      unfold dict_get in Et. rewrite Hts in Et. discriminate.
Qed.

Lemma scan_rule_appending (fn : list string) (icf : list value) :
  appending (LambdaRuleInvokeConfig.scan_rule fn icf).
Proof.
  intros s [key resource]. unfold LambdaRuleInvokeConfig.scan_rule.
  destruct (LambdaRuleInvokeConfig.targets_of resource) as [targets | e];
    cbn [bind]; [| reflexivity].
  apply for_each_shift, scan_target_appending.
Qed.

(** What one rule adds to [matches]. *)
Lemma scan_rule_Ok (fn : list string) (icf : list value) (key : string)
      (resource : dict) (l : list RuleMatch) :
  LambdaRuleInvokeConfig.scan_rule fn icf [] (key, resource) = Ok l ->
  forall k,
    In ["Resources"; k] (map path l) <->
    k = key /\
    exists target f,
      rule_target resource target /\ target_get_att target (VStr f) /\
      In f fn /\ ~ In (VStr f) icf.
Proof.
  unfold LambdaRuleInvokeConfig.scan_rule. intros H k.
  apply bind_Ok_inv in H as (targets & Ht & H).
  pose proof (scan_target_appending fn icf key) as Happ.
  split.
  - intros Hin. apply in_map_iff in Hin as (m & Hp & Hm).
    apply (for_each_In _ m Happ H) in Hm as (target & l' & Hin & Hl' & Hml).
    assert (In ["Resources"; k] (map path l')) as Hk
        by (apply in_map_iff; eauto).
    apply (scan_target_Ok _ _ _ _ Hl') in Hk as [-> (f & Hf & Hfn & Hno)].
    split; [reflexivity |]. exists target, f. repeat split; try assumption.
    destruct Hf as (t & a & g & -> & _).
    now apply (targets_of_Ok _ t Ht).
  - intros [-> (target & f & Hrt & Hf & Hfn & Hno)].
    assert (In target targets) as Hin.
    { destruct Hf as (t & a & g & -> & _). now apply (targets_of_Ok _ t Ht). }
    destruct (for_each_all_Ok _ _ Happ H Hin) as (l' & Hl').
    assert (In ["Resources"; key] (map path l')) as Hk.
    { apply (scan_target_Ok _ _ _ _ Hl'). split; [reflexivity |]. eauto. }
    apply in_map_iff in Hk as (m & Hp & Hm).
    apply in_map_iff. exists m. split; [assumption |].
    apply (for_each_In _ m Happ H). eauto.
Qed.

(** The functions the first loop collects are those an invoke config with
    OnFailure destination refers to. *)
Lemma invoke_config_functions_Ok (cfn : Template) (icf : list value) :
  for_each (map snd (get_resources cfn ["AWS::Lambda::EventInvokeConfig"]))
           LambdaRuleInvokeConfig.scan_invoke_config [] = Ok icf ->
  forall f, In (VStr f) icf <-> covered_by_invoke_config cfn f.
Proof.
  intros E f. rewrite (for_each_In _ (VStr f) scan_invoke_config_appending E).
  unfold covered_by_invoke_config. split.
  - intros (ic & l & Hin & Hl & Hf).
    apply in_map_iff in Hin as ([k ic'] & <- & Hin).
    apply (scan_invoke_config_Ok _ Hl) in Hf as [Hon Href].
    exists k, ic'. auto.
  - intros (k & ic & Hin & Hon & Href).
    assert (In ic (map snd (get_resources cfn ["AWS::Lambda::EventInvokeConfig"])))
      as Hic by (apply in_map_iff; now exists (k, ic)).
    destruct (for_each_all_Ok _ _ scan_invoke_config_appending E Hic) as (l & Hl).
    exists ic, l. repeat split; try assumption.
    apply (scan_invoke_config_Ok _ Hl). auto.
Qed.

(** What the rule reports when it returns. *)
Lemma invoke_config_reports (cfn : Template) :
  ~ raises (LambdaRuleInvokeConfig.match_ cfn) ->
  invoke_config_claim cfn.
Proof.
  intros Hr key. unfold reports.
  unfold LambdaRuleInvokeConfig.match_ in *. cbv zeta in *.
  destruct (for_each (map snd _) _ _) as [icf | e] eqn:Ei; [| now destruct Hr].
  cbn [bind] in *.
  pose proof (invoke_config_functions_Ok cfn Ei) as Hicf.
  destruct (for_each _ (LambdaRuleInvokeConfig.scan_rule _ _) _)
    as [ms | e] eqn:Em; [| now destruct Hr].
  pose proof (scan_rule_appending
                (map fst (get_resources cfn ["AWS::Lambda::Function"])) icf)
    as Happ.
  split.
  - intros Hin. apply in_map_iff in Hin as (m & Hp & Hm).
    apply (for_each_In _ m Happ Em) in Hm as ([k resource] & l & Hin & Hl & Hml).
    assert (In ["Resources"; key] (map path l)) as Hk
        by (apply in_map_iff; eauto).
    apply (@scan_rule_Ok _ _ _ _ _ Hl) in Hk
      as [-> (target & f & Hrt & Hf & Hfn & Hno)].
    exists resource. split; [assumption |].
    exists target, f. repeat split; try assumption.
    now rewrite <- Hicf.
  - intros (resource & Hin & target & f & Hrt & Hf & Hfn & Hno).
    destruct (for_each_all_Ok _ _ Happ Em Hin) as (l & Hl).
    assert (In ["Resources"; key] (map path l)) as Hk.
    { apply (@scan_rule_Ok _ _ _ _ _ Hl). split; [reflexivity |].
      exists target, f. repeat split; try assumption. now rewrite Hicf. }
    apply in_map_iff in Hk as (m & Hp & Hm).
    apply in_map_iff. exists m. split; [assumption |].
    apply (for_each_In _ m Happ Em). eauto.
Qed.

(** C3, as amended.  For every template on which
    LambdaRuleInvokeConfig.match returns, the result holds a violation with
    path ["Resources", ruleKey] exactly for the AWS::Events::Rule resources
    that have some target whose Arn is a mapping with an Fn::GetAtt whose
    first element names an AWS::Lambda::Function resource of the template,
    while no AWS::Lambda::EventInvokeConfig resource with an OnFailure
    destination (present and not None) has Properties.FunctionName.Ref
    equal to that name. *)
Theorem invoke_config_match (cfn : Template) :
  ~ raises (LambdaRuleInvokeConfig.match_ cfn) ->
  invoke_config_claim cfn.
Proof. exact (invoke_config_reports cfn). Qed.

Lemma invoke_config_match_witness :
  ~ raises (LambdaRuleInvokeConfig.match_ Samples.invoked) /\
  invoke_config_claim Samples.invoked.
Proof.
  assert (~ raises (LambdaRuleInvokeConfig.match_ Samples.invoked)) as Hr
      by (vm_compute; tauto).
  split; [exact Hr |].
  exact (invoke_config_match Samples.invoked Hr).
Defined.

(** C3, as stated, fails: next to a rule whose Properties are null the call
    raises AttributeError, and the rule that invokes a function without
    invoke config is not reported. *)
Lemma invoke_config_null_properties_counterexample :
  LambdaRuleInvokeConfig.match_ Samples.invoked_and_null = Raise AttributeError /\
  ~ invoke_config_claim Samples.invoked_and_null.
Proof.
  split; [reflexivity |].
  intros H. specialize (H "OnOrder"). destruct H as [_ H].
  apply H.
  exists [("Type", VStr "AWS::Events::Rule");
          ("Properties",
           VDict [("Targets",
                   VList [VDict [("Arn", Samples.get_att "Fn"); ("Id", VStr "fn")]])])].
  split; [cbn; now left |].
  exists (VDict [("Arn", Samples.get_att "Fn"); ("Id", VStr "fn")]), "Fn".
  split; [| split; [| split]].
  - exists [("Targets",
             VList [VDict [("Arn", Samples.get_att "Fn"); ("Id", VStr "fn")]])],
           [VDict [("Arn", Samples.get_att "Fn"); ("Id", VStr "fn")]].
    split; [reflexivity | split; [reflexivity | now left]].
  - exists [("Arn", Samples.get_att "Fn"); ("Id", VStr "fn")],
           [("Fn::GetAtt", VList [VStr "Fn"; VStr "Arn"])],
           (VList [VStr "Fn"; VStr "Arn"]).
    split; [reflexivity | split; [reflexivity | split; reflexivity]].
  - cbn. now left.
  - intros (k & ic & Hin & _). destruct Hin.
Qed.

(** A rule is only ever reported for a target whose Arn is a mapping with
    an Fn::GetAtt that names a function of the template. *)
Lemma invoke_config_reports_get_att (cfn : Template) (key : string) :
  reports (LambdaRuleInvokeConfig.match_ cfn) ["Resources"; key] ->
  exists resource target f,
    In (key, resource) (get_resources cfn ["AWS::Events::Rule"]) /\
    rule_target resource target /\
    target_get_att target (VStr f) /\
    In f (map fst (get_resources cfn ["AWS::Lambda::Function"])).
Proof.
  intros H.
  assert (~ raises (LambdaRuleInvokeConfig.match_ cfn)) as Hr.
  { destruct (LambdaRuleInvokeConfig.match_ cfn); [cbn; tauto | destruct H]. }
  apply (invoke_config_reports cfn Hr) in H
    as (resource & Hin & target & f & Hrt & Hf & Hfn & _).
  exists resource, target, f. auto.
Qed.

(** C10.  A target whose Arn is a Ref is skipped and its rule is not
    reported, but a target whose Arn is a literal ARN string is not skipped:
    [target.get("Arn", {})] is the string, which has no [get], and the call
    raises AttributeError. *)
Theorem literal_arn_raises :
  LambdaRuleInvokeConfig.match_ Samples.ref_arn = Ok [] /\
  LambdaRuleInvokeConfig.match_ Samples.literal_arn = Raise AttributeError.
Proof. split; reflexivity. Qed.

(** C2.  The lookups of Properties in Python38Rule and LambdaLogGroupRule
    have no default, and the FunctionName of an invoke config is indexed
    with "Ref" whatever it is: a log group without Properties, a function
    without Properties and a FunctionName given as a string each make the
    call raise. *)
Theorem unguarded_lookups_raise :
  LambdaLogGroupRule.match_ Samples.bare_log_group = Raise TypeError /\
  Python38Rule.match_ Samples.runtime_and_bare = Raise AttributeError /\
  LambdaRuleInvokeConfig.match_ Samples.literal_function_name = Raise TypeError.
Proof. repeat split; reflexivity. Qed.

(** ** The shape of the returned paths *)

Lemma path_into_parameters (cfn : Template) : path_into cfn ["Parameters"].
Proof.
  split.
  - exists "Parameters", []. auto.
  - intros k H. discriminate.
Qed.

Lemma path_into_resource (cfn : Template) (k : string) :
  In k (keys (Resources cfn)) -> path_into cfn ["Resources"; k].
Proof.
  intros Hk. split.
  - exists "Resources", [k]. auto.
  - intros k' H. injection H as <-. assumption.
Qed.

Lemma python38_step_paths (key : string) (val : dict) (l : list RuleMatch) :
  Python38Rule.check_function [] (key, val) = Ok l ->
  forall m, In m l -> path m = ["Resources"; key].
Proof.
  unfold Python38Rule.check_function.
  destruct (Python38Rule.runtime_of val) as [r | e]; [| discriminate].
  cbn [bind]. destruct (negb (py_eq r (VStr Python38Rule._runtime)));
    intros H; injection H as <-; cbn [app In]; intros m Hm;
    [destruct Hm as [<- | []]; reflexivity | destruct Hm].
Qed.

Lemma esm_step_paths (key : string) (resource : dict) (l : list RuleMatch) :
  LambdaESMDestinationConfig.check_source [] (key, resource) = Ok l ->
  forall m, In m l -> path m = ["Resources"; key].
Proof.
  unfold LambdaESMDestinationConfig.check_source.
  destruct (on_failure resource) as [f | e]; [| discriminate].
  cbn [bind]. destruct (is_None f);
    intros H; injection H as <-; cbn [app In]; intros m Hm;
    [destruct Hm as [<- | []]; reflexivity | destruct Hm].
Qed.

Lemma log_group_step_paths (known : list string) (f : string) (l : list RuleMatch) :
  LambdaLogGroupRule.check_function known [] f = Ok l ->
  forall m, In m l -> path m = ["Resources"; f].
Proof.
  unfold LambdaLogGroupRule.check_function.
  destruct (negb (str_in f known));
    intros H; injection H as <-; cbn [app In]; intros m Hm;
    [destruct Hm as [<- | []]; reflexivity | destruct Hm].
Qed.

Lemma scan_target_paths (fn : list string) (icf : list value) (key : string)
      (target : value) (l : list RuleMatch) :
  LambdaRuleInvokeConfig.scan_target fn icf key [] target = Ok l ->
  forall m, In m l -> path m = ["Resources"; key].
Proof.
  unfold LambdaRuleInvokeConfig.scan_target.
  destruct (LambdaRuleInvokeConfig.get_att target) as [g | e]; [| discriminate].
  cbn [bind]. destruct (is_None g).
  { intros H; injection H as <-; intros m []. }
  destruct (LambdaRuleInvokeConfig.get_att0 target) as [x | e]; [| discriminate].
  cbn [bind]. destruct (py_in_keys x fn) as [[|] | e]; cbn [bind negb];
    try discriminate.
  - destruct (negb (py_in_list x icf));
      intros H; injection H as <-; cbn [app In]; intros m Hm;
      [destruct Hm as [<- | []]; reflexivity | destruct Hm].
  - intros H; injection H as <-; intros m [].
Qed.

Lemma scan_rule_paths (fn : list string) (icf : list value) (key : string)
      (resource : dict) (l : list RuleMatch) :
  LambdaRuleInvokeConfig.scan_rule fn icf [] (key, resource) = Ok l ->
  forall m, In m l -> path m = ["Resources"; key].
Proof.
  unfold LambdaRuleInvokeConfig.scan_rule. intros H m Hm.
  apply bind_Ok_inv in H as (targets & _ & H).
  apply (for_each_In _ m (scan_target_appending fn icf key) H) in Hm
    as (target & l' & _ & Hl' & Hml).
  exact (scan_target_paths _ _ _ _ Hl' m Hml).
Qed.

(** C8.  Whatever list a rule's match returns, every record in it has a
    path whose head is "Parameters" or "Resources" and whose second
    element, when there is one, is a key of the template's Resources; with
    it comes a message string. *)
Theorem match_paths (r : rule) (cfn : Template) (h : heap) (ms : list RuleMatch) :
  fst (run r cfn h) = Ok ms ->
  Forall (fun m => path_into cfn (path m)) ms.
Proof.
  intros H. apply Forall_forall. intros m Hm. destruct r; cbn [run fst] in H.
  - unfold MandatoryParametersRule.match_, deepcopy, heap_alloc in H.
    cbn [fst] in H. injection H as <-.
    apply in_map_iff in Hm as (param & <- & _). apply path_into_parameters.
  - unfold Python38Rule.match_ in H.
    apply (for_each_In _ m python38_body_appending H) in Hm
      as ([key val] & l & Hin & Hl & Hml).
    rewrite (python38_step_paths _ _ Hl m Hml).
    apply path_into_resource. eapply get_resources_key; eauto.
  - unfold LambdaLogGroupRule.match_ in H. cbv zeta in H.
    apply bind_Ok_inv in H as (known & _ & H).
    apply (for_each_In _ m (log_group_check_appending known) H) in Hm
      as (f & l & Hin & Hl & Hml).
    rewrite (log_group_step_paths _ _ Hl m Hml).
    apply path_into_resource. eapply select_resources_keys; eauto.
  - unfold LambdaESMDestinationConfig.match_ in H. cbv zeta in H.
    apply (for_each_In _ m esm_body_appending H) in Hm
      as ([key resource] & l & Hin & Hl & Hml).
    rewrite (esm_step_paths _ _ Hl m Hml).
    apply path_into_resource. eapply get_resources_key; eauto.
  - unfold LambdaRuleInvokeConfig.match_ in H. cbv zeta in H.
    apply bind_Ok_inv in H as (icf & _ & H).
    apply (for_each_In _ m (scan_rule_appending _ icf) H) in Hm
      as ([key resource] & l & Hin & Hl & Hml).
    rewrite (scan_rule_paths _ _ _ _ Hl m Hml).
    apply path_into_resource. eapply get_resources_key; eauto.
Qed.

Lemma match_paths_witness :
  fst (run E9001 Samples.runtimes MandatoryParametersRule.class_heap) =
  Ok [mkRuleMatch ["Resources"; "Old"]
                  "Function is using python3.6 runtime instead of python3.8"] /\
  Forall (fun m => path_into Samples.runtimes (path m))
         [mkRuleMatch ["Resources"; "Old"]
                      "Function is using python3.6 runtime instead of python3.8"].
Proof.
  assert (fst (run E9001 Samples.runtimes MandatoryParametersRule.class_heap) =
          Ok [mkRuleMatch ["Resources"; "Old"]
                          "Function is using python3.6 runtime instead of python3.8"])
    as H by reflexivity.
  split; [exact H |].
  exact (match_paths E9001 Samples.runtimes MandatoryParametersRule.class_heap H).
Defined.

(** ** Templates on which the rules return *)

(** LambdaESMDestinationConfig.match returns when Properties and
    DestinationConfig of every event source mapping are mappings where
    present. *)
Lemma esm_returns (cfn : Template) :
  (forall key resource,
      In (key, resource) (get_resources cfn ["AWS::Lambda::EventSourceMapping"]) ->
      exists p, dict_get resource "Properties" (VDict []) = VDict p /\
                exists d, dict_get p "DestinationConfig" (VDict []) = VDict d) ->
  ~ raises (LambdaESMDestinationConfig.match_ cfn).
Proof.
  intros H. unfold LambdaESMDestinationConfig.match_. cbv zeta.
  destruct (for_each_returns (body := LambdaESMDestinationConfig.check_source)
              (get_resources cfn ["AWS::Lambda::EventSourceMapping"])
              esm_body_appending) as (ms & ->); [| cbn; tauto].
  intros [key resource] Hin.
  destruct (on_failure_returns resource (H key resource Hin)) as (v & Hv).
  unfold LambdaESMDestinationConfig.check_source. rewrite Hv. cbn [bind].
  destruct (is_None v); eauto.
Qed.

(** LambdaLogGroupRule.match returns when every log group has a Properties
    mapping and every Fn::Sub of a mapping LogGroupName is a string. *)
Lemma log_group_returns (cfn : Template) :
  (forall key lg,
      In (key, lg) (get_resources cfn ["AWS::Logs::LogGroup"]) ->
      exists p, dict_lookup "Properties" lg = Some (VDict p) /\
                forall n v, dict_lookup "LogGroupName" p = Some (VDict n) ->
                            dict_lookup "Fn::Sub" n = Some v ->
                            exists s, v = VStr s) ->
  ~ raises (LambdaLogGroupRule.match_ cfn).
Proof.
  intros H. unfold LambdaLogGroupRule.match_. cbv zeta.
  destruct (for_each_returns (body := LambdaLogGroupRule.scan_log_group)
              (map snd (get_resources cfn ["AWS::Logs::LogGroup"]))
              scan_log_group_appending) as (known & ->).
  - intros lg Hin. apply in_map_iff in Hin as ([key lg'] & <- & Hin).
    destruct (H key lg' Hin) as (p & Hp & Hsub). cbn [snd].
    unfold LambdaLogGroupRule.scan_log_group.
    apply dict_get_dict in Hp. rewrite Hp. cbn [py_in py_in_keys bind].
    destruct (str_in "LogGroupName" (keys p)) eqn:Ek; cbn [negb]; [| eauto].
    cbn [py_get bind].
    destruct (dict_get p "LogGroupName" VNone) as [| | | | | n] eqn:En;
      cbn [is_dict negb bind]; eauto.
    cbn [py_in py_in_keys bind].
    destruct (str_in "Fn::Sub" (keys n)) eqn:Es; cbn [negb]; [| eauto].
    apply str_in_keys_lookup in Es as (v & Hv).
    apply str_in_keys_lookup in Ek as (lgn & Hlgn).
    unfold dict_get in En. rewrite Hlgn in En. subst lgn.
    destruct (Hsub n v Hlgn Hv) as (s & ->).
    cbn [py_getitem]. rewrite Hv. cbn [bind re_search].
    destruct (search_func s); eauto.
  - cbn [bind].
    destruct (for_each_returns
                (body := LambdaLogGroupRule.check_function known)
                (map fst (get_resources cfn ["AWS::Lambda::Function"]))
                (log_group_check_appending known)) as (ms & ->); [| cbn; tauto].
    intros f _. unfold LambdaLogGroupRule.check_function.
    destruct (negb (str_in f known)); eauto.
Qed.


(** * Further properties of the rules *)

(** ** Loops once more *)

(** A loop that raises does so in the body, on one of the elements. *)
Lemma for_each_raises {A S} (body : S -> A -> result S) (xs : list A) (s : S)
      (e : exn) :
  for_each xs body s = Raise e ->
  exists x s0, In x xs /\ body s0 x = Raise e.
Proof.
  revert s. induction xs as [| x xs IH]; intros s; cbn [for_each];
    [discriminate |].
  destruct (body s x) as [s' | e'] eqn:E; cbn [bind].
  - intros H. destruct (IH _ H) as (y & s0 & Hy & Hb).
    exists y, s0. split; [now right | assumption].
  - intros H. injection H as ->. exists x, s. split; [now left | assumption].
Qed.

(** A loop whose body adds one record for the elements it keeps returns
    the records of the kept elements, in order. *)
Lemma concat_map_filter {A B} (keep : A -> bool) (mk : A -> B)
      (step : A -> result (list B)) (xs : list A) (ls : list (list B)) :
  Forall2 (fun x l => step x = Ok l) xs ls ->
  (forall x l, In x xs -> step x = Ok l -> l = if keep x then [mk x] else []) ->
  List.concat ls = map mk (filter keep xs).
Proof.
  induction 1 as [| x l xs ls Hl HF IH]; intros Hstep; [reflexivity |].
  cbn [List.concat filter].
  rewrite IH by (intros y l' Hy; apply Hstep; now right).
  rewrite (Hstep x l (or_introl eq_refl) Hl).
  destruct (keep x); reflexivity.
Qed.

Lemma raises_dec {A} (r : result A) : raises r \/ ~ raises r.
Proof. destruct r; cbn; tauto. Qed.

(** ** Python38Rule: errors and the returned list *)

Lemma runtime_is_declared (val : dict) (r : value) :
  runtime_is val r -> declared_runtime val = r.
Proof.
  intros (p & Hp & <-). unfold declared_runtime. now rewrite Hp.
Qed.

Lemma runtime_of_raises (val : dict) (e : exn) :
  Python38Rule.runtime_of val = Raise e ->
  e = AttributeError /\ forall p, dict_lookup "Properties" val <> Some (VDict p).
Proof.
  unfold Python38Rule.runtime_of, py_get.
  destruct (dict_get val "Properties" VNone) as [| | | | | p0] eqn:E;
    try discriminate; intros H; injection H as <-; (split; [reflexivity |]);
    intros p Hp; apply dict_get_dict in Hp; congruence.
Qed.

(** X1.  Python38Rule.match raises exactly when some AWS::Lambda::Function
    resource has no Properties mapping (the key is absent, or its value is
    not a mapping), and the exception is then AttributeError. *)
Theorem python38_raises_iff (cfn : Template) :
  (raises (Python38Rule.match_ cfn) <->
   exists key val,
     In (key, val) (get_resources cfn ["AWS::Lambda::Function"]) /\
     forall p, dict_lookup "Properties" val <> Some (VDict p)) /\
  (forall e, Python38Rule.match_ cfn = Raise e -> e = AttributeError).
Proof.
  assert (forall e, Python38Rule.match_ cfn = Raise e ->
                    e = AttributeError /\
                    exists key val,
                      In (key, val) (get_resources cfn ["AWS::Lambda::Function"]) /\
                      forall p, dict_lookup "Properties" val <> Some (VDict p))
    as Hraise.
  { intros e H. unfold Python38Rule.match_ in H.
    apply for_each_raises in H as ([key val] & s0 & Hin & Hb).
    unfold Python38Rule.check_function in Hb.
    destruct (Python38Rule.runtime_of val) as [r | e'] eqn:Er.
    - cbn [bind] in Hb.
      destruct (negb (py_eq r (VStr Python38Rule._runtime))); discriminate.
    - cbn [bind] in Hb. injection Hb as ->.
      destruct (runtime_of_raises _ Er) as [-> Hno]. eauto. }
  split; [| intros e H; now destruct (Hraise e H)].
  split.
  - destruct (Python38Rule.match_ cfn) as [ms | e] eqn:E; [intros [] |].
    intros _. now destruct (Hraise e eq_refl).
  - intros (key & val & Hin & Hno).
    destruct (raises_dec (Python38Rule.match_ cfn)) as [H | H]; [exact H |].
    destruct (proj1 (python38_returns_iff cfn) H key val Hin) as (r & p & Hp & _).
    now destruct (Hno p).
Qed.

(** X2.  When Python38Rule.match returns, its list is, in template order,
    one record per AWS::Lambda::Function resource whose Runtime (None when
    absent) is not "python3.8", with path ["Resources", key] and the
    message "Function is using <str(Runtime)> runtime instead of
    python3.8". *)
Theorem python38_violations (cfn : Template) (ms : list RuleMatch) :
  Python38Rule.match_ cfn = Ok ms ->
  ms =
  map (fun item =>
         mkRuleMatch ["Resources"; fst item]
           ("Function is using " ++ py_str (declared_runtime (snd item))
            ++ " runtime instead of python3.8")%string)
      (filter (fun item =>
                 negb (py_eq (declared_runtime (snd item)) (VStr "python3.8")))
              (get_resources cfn ["AWS::Lambda::Function"])).
Proof.
  unfold Python38Rule.match_. intros H.
  apply (for_each_appending python38_body_appending) in H as (ls & HF & ->).
  cbn [app].
  apply concat_map_filter with (step := Python38Rule.check_function []);
    [exact HF |].
  intros [key val] l _ Hl. cbn [fst snd].
  assert (exists r, runtime_is val r) as (r & Hr).
  { unfold Python38Rule.check_function in Hl.
    destruct (Python38Rule.runtime_of val) as [r | e] eqn:Er; [| discriminate].
    exists r. now apply runtime_of_Ok. }
  rewrite (python38_step key Hr) in Hl. injection Hl as <-.
  rewrite (runtime_is_declared Hr).
  destruct (py_eq r (VStr "python3.8")); reflexivity.
Qed.

Lemma python38_violations_witness :
  Python38Rule.match_ Samples.runtimes =
  Ok [mkRuleMatch ["Resources"; "Old"]
                  "Function is using python3.6 runtime instead of python3.8"] /\
  [mkRuleMatch ["Resources"; "Old"]
               "Function is using python3.6 runtime instead of python3.8"] =
  map (fun item =>
         mkRuleMatch ["Resources"; fst item]
           ("Function is using " ++ py_str (declared_runtime (snd item))
            ++ " runtime instead of python3.8")%string)
      (filter (fun item =>
                 negb (py_eq (declared_runtime (snd item)) (VStr "python3.8")))
              (get_resources Samples.runtimes ["AWS::Lambda::Function"])).
Proof.
  assert (Python38Rule.match_ Samples.runtimes =
          Ok [mkRuleMatch ["Resources"; "Old"]
                          "Function is using python3.6 runtime instead of python3.8"])
    as H by reflexivity.
  split; [exact H |].
  exact (python38_violations Samples.runtimes H).
Defined.

(** ** LambdaESMDestinationConfig: errors and the returned list *)

Lemma dict_get_not_dict (d : dict) (k : string) :
  is_dict (dict_get d k (VDict [])) = false <-> not_a_mapping d k.
Proof.
  unfold dict_get, not_a_mapping.
  destruct (dict_lookup k d) as [v |]; split.
  - intros H. eauto.
  - intros (v' & Hv' & H). now injection Hv' as <-.
  - discriminate.
  - intros (v' & Hv' & _). discriminate.
Qed.

Lemma on_failure_declared (resource : dict) (v : value) :
  on_failure resource = Ok v -> v = declared_on_failure resource.
Proof.
  unfold on_failure, declared_on_failure. cbn [py_get bind].
  destruct (dict_get resource "Properties" (VDict [])) as [| | | | | p] eqn:Ep;
    try discriminate.
  cbn [py_get bind].
  destruct (dict_get p "DestinationConfig" (VDict [])) as [| | | | | d] eqn:Ed;
    try discriminate.
  cbn [py_get]. intros H. injection H as <-.
  apply dict_get_default_dict in Ep, Ed.
  destruct Ep as [-> | [-> ->]].
  - destruct Ed as [-> | [-> ->]]; reflexivity.
  - destruct Ed as [Ed | [_ ->]]; [discriminate | reflexivity].
Qed.

(** The lookup raises exactly when Properties, or DestinationConfig inside
    a Properties mapping, is present and not a mapping. *)
Lemma on_failure_raises (resource : dict) :
  (raises (on_failure resource) <->
   not_a_mapping resource "Properties" \/
   exists p, dict_lookup "Properties" resource = Some (VDict p) /\
             not_a_mapping p "DestinationConfig") /\
  (forall e, on_failure resource = Raise e -> e = AttributeError).
Proof.
  unfold on_failure. cbn [py_get bind].
  pose proof (dict_get_not_dict resource "Properties") as Hp.
  destruct (dict_get resource "Properties" (VDict [])) as [| | | | | p] eqn:Ep;
    cbn [py_get bind raises is_dict] in *;
    try (split; [split; [intros _; left; now apply Hp | tauto]
                | intros e H; now injection H as <-]).
  pose proof (dict_get_not_dict p "DestinationConfig") as Hd.
  assert (forall q, dict_lookup "Properties" resource = Some (VDict q) -> q = p)
    as Hq.
  { intros q Hq. unfold dict_get in Ep. rewrite Hq in Ep. congruence. }
  assert (~ not_a_mapping resource "Properties") as Hnp
      by (intros H; apply Hp in H; discriminate).
  destruct (dict_get p "DestinationConfig" (VDict [])) as [| | | | | d] eqn:Ed;
    cbn [py_get bind raises is_dict] in *.
  6:{ split; [| discriminate]. split; [intros [] |].
      intros [H | (q & Hq' & H)]; [tauto |].
      rewrite (Hq q Hq') in H. apply Hd in H. discriminate. }
  all: split; [split; [intros _ | tauto] | intros e H; now injection H as <-].
  all: apply dict_get_default_dict in Ep.
  all: destruct Ep as [Ep | [Ep ->]];
    [right; exists p; split; [exact Ep | now apply Hd] |].
  all: cbn in Ed; discriminate.
Qed.

(** X4.  LambdaESMDestinationConfig.match raises exactly when some
    AWS::Lambda::EventSourceMapping resource has Properties, or a
    DestinationConfig inside its Properties mapping, that is present and
    not a mapping (the defaults stand in for missing keys only), and the
    exception is then AttributeError. *)
Theorem esm_raises_iff (cfn : Template) :
  (raises (LambdaESMDestinationConfig.match_ cfn) <->
   exists key resource,
     In (key, resource) (get_resources cfn ["AWS::Lambda::EventSourceMapping"]) /\
     (not_a_mapping resource "Properties" \/
      exists p, dict_lookup "Properties" resource = Some (VDict p) /\
                not_a_mapping p "DestinationConfig")) /\
  (forall e, LambdaESMDestinationConfig.match_ cfn = Raise e -> e = AttributeError).
Proof.
  assert (forall e, LambdaESMDestinationConfig.match_ cfn = Raise e ->
                    exists key resource,
                      In (key, resource)
                         (get_resources cfn ["AWS::Lambda::EventSourceMapping"]) /\
                      on_failure resource = Raise e) as Hraise.
  { intros e H. unfold LambdaESMDestinationConfig.match_ in H. cbv zeta in H.
    apply for_each_raises in H as ([key resource] & s0 & Hin & Hb).
    unfold LambdaESMDestinationConfig.check_source in Hb.
    destruct (on_failure resource) as [v | e'] eqn:Ev; cbn [bind] in Hb.
    - destruct (is_None v); discriminate.
    - injection Hb as ->. eauto. }
  split; [split |].
  - destruct (LambdaESMDestinationConfig.match_ cfn) as [ms | e] eqn:E;
      [intros [] |].
    intros _. destruct (Hraise e eq_refl) as (key & resource & Hin & He).
    exists key, resource. split; [exact Hin |].
    apply (proj1 (on_failure_raises resource)). now rewrite He.
  - intros (key & resource & Hin & Hbad).
    apply (proj1 (on_failure_raises resource)) in Hbad.
    destruct (LambdaESMDestinationConfig.match_ cfn) as [ms | e] eqn:E;
      [| exact I].
    unfold LambdaESMDestinationConfig.match_ in E. cbv zeta in E.
    destruct (for_each_all_Ok _ _ esm_body_appending E Hin) as (l & Hl).
    unfold LambdaESMDestinationConfig.check_source in Hl.
    destruct (on_failure resource); [destruct Hbad | discriminate].
  - intros e H. destruct (Hraise e H) as (key & resource & _ & He).
    exact (proj2 (on_failure_raises resource) e He).
Qed.

(** X3.  When LambdaESMDestinationConfig.match returns, its list is, in
    template order, one record per AWS::Lambda::EventSourceMapping resource
    whose Properties.DestinationConfig.OnFailure is missing or None, with
    path ["Resources", key] and the message "Event Source Mapping <key>
    does not have a DestinationConfig with OnFailure destination". *)
Theorem esm_violations (cfn : Template) (ms : list RuleMatch) :
  LambdaESMDestinationConfig.match_ cfn = Ok ms ->
  ms =
  map (fun item =>
         mkRuleMatch ["Resources"; fst item]
           ("Event Source Mapping " ++ fst item ++
            " does not have a DestinationConfig with OnFailure destination")%string)
      (filter (fun item => is_None (declared_on_failure (snd item)))
              (get_resources cfn ["AWS::Lambda::EventSourceMapping"])).
Proof.
  unfold LambdaESMDestinationConfig.match_. cbv zeta. intros H.
  apply (for_each_appending esm_body_appending) in H as (ls & HF & ->).
  cbn [app].
  apply concat_map_filter with (step := LambdaESMDestinationConfig.check_source []);
    [exact HF |].
  intros [key resource] l _ Hl. cbn [fst snd].
  unfold LambdaESMDestinationConfig.check_source in Hl.
  destruct (on_failure resource) as [v | e] eqn:Ev; [| discriminate].
  cbn [bind] in Hl. rewrite <- (on_failure_declared _ Ev).
  destruct (is_None v); injection Hl as <-; reflexivity.
Qed.

Lemma esm_violations_witness :
  LambdaESMDestinationConfig.match_ Samples.mappings =
  Ok [mkRuleMatch ["Resources"; "Plain"]
        "Event Source Mapping Plain does not have a DestinationConfig with OnFailure destination"] /\
  [mkRuleMatch ["Resources"; "Plain"]
     "Event Source Mapping Plain does not have a DestinationConfig with OnFailure destination"] =
  map (fun item =>
         mkRuleMatch ["Resources"; fst item]
           ("Event Source Mapping " ++ fst item ++
            " does not have a DestinationConfig with OnFailure destination")%string)
      (filter (fun item => is_None (declared_on_failure (snd item)))
              (get_resources Samples.mappings ["AWS::Lambda::EventSourceMapping"])).
Proof.
  assert (LambdaESMDestinationConfig.match_ Samples.mappings =
          Ok [mkRuleMatch ["Resources"; "Plain"]
                "Event Source Mapping Plain does not have a DestinationConfig with OnFailure destination"])
    as H by reflexivity.
  split; [exact H |].
  exact (esm_violations Samples.mappings H).
Defined.

(** ** LambdaLogGroupRule: the returned list and what a log group covers *)

Lemma log_group_known (cfn : Template) (known : list string) :
  for_each (map snd (get_resources cfn ["AWS::Logs::LogGroup"]))
           LambdaLogGroupRule.scan_log_group [] = Ok known ->
  forall f, In f known <-> has_log_group cfn f.
Proof.
  intros Ek f.
  rewrite (for_each_In _ f scan_log_group_appending Ek). unfold has_log_group.
  split.
  - intros (lg & l & Hin & Hl & Hf).
    apply in_map_iff in Hin as ([k lg'] & <- & Hin).
    exists k, lg'. split; [assumption |].
    now apply (scan_log_group_Ok _ Hl).
  - intros (k & lg & Hin & Hf).
    assert (In lg (map snd (get_resources cfn ["AWS::Logs::LogGroup"]))) as Hlg.
    { apply in_map_iff. now exists (k, lg). }
    destruct (for_each_all_Ok _ _ scan_log_group_appending Ek Hlg) as (l & Hl).
    exists lg, l. repeat split; try assumption.
    now apply (scan_log_group_Ok _ Hl).
Qed.

(** The two loops of the rule, when it returns. *)
Lemma log_group_result (cfn : Template) (ms : list RuleMatch) :
  LambdaLogGroupRule.match_ cfn = Ok ms ->
  exists known,
    for_each (map snd (get_resources cfn ["AWS::Logs::LogGroup"]))
             LambdaLogGroupRule.scan_log_group [] = Ok known /\
    ms =
    map (fun f =>
           mkRuleMatch ["Resources"; f]
             ("Function " ++ f ++ " does not have a corresponding log group")%string)
        (filter (fun f => negb (str_in f known))
                (map fst (get_resources cfn ["AWS::Lambda::Function"]))).
Proof.
  unfold LambdaLogGroupRule.match_. cbv zeta. intros H.
  apply bind_Ok_inv in H as (known & Ek & H).
  exists known. split; [exact Ek |].
  apply (for_each_appending (log_group_check_appending known)) in H
    as (ls & HF & ->).
  cbn [app].
  apply concat_map_filter with (step := LambdaLogGroupRule.check_function known []);
    [exact HF |].
  intros f l _ Hl. unfold LambdaLogGroupRule.check_function in Hl.
  destruct (negb (str_in f known)); injection Hl as <-; reflexivity.
Qed.

(** X5.  When LambdaLogGroupRule.match returns, its list is, in template
    order, one record per AWS::Lambda::Function logical ID that no log
    group names, with path ["Resources", f] and the message "Function <f>
    does not have a corresponding log group"; [known] holds the names the
    log groups stand for. *)
Theorem log_group_violations (cfn : Template) (ms : list RuleMatch) :
  LambdaLogGroupRule.match_ cfn = Ok ms ->
  exists known,
    (forall f, In f known <-> has_log_group cfn f) /\
    ms =
    map (fun f =>
           mkRuleMatch ["Resources"; f]
             ("Function " ++ f ++ " does not have a corresponding log group")%string)
        (filter (fun f => negb (str_in f known))
                (map fst (get_resources cfn ["AWS::Lambda::Function"]))).
Proof.
  intros H. destruct (log_group_result cfn H) as (known & Ek & Hms).
  exists known. split; [exact (log_group_known cfn Ek) | exact Hms].
Qed.

Lemma log_group_violations_witness :
  LambdaLogGroupRule.match_ Samples.log_groups =
  Ok [mkRuleMatch ["Resources"; "Other"]
                  "Function Other does not have a corresponding log group"] /\
  exists known,
    (forall f, In f known <-> has_log_group Samples.log_groups f) /\
    [mkRuleMatch ["Resources"; "Other"]
                 "Function Other does not have a corresponding log group"] =
    map (fun f =>
           mkRuleMatch ["Resources"; f]
             ("Function " ++ f ++ " does not have a corresponding log group")%string)
        (filter (fun f => negb (str_in f known))
                (map fst (get_resources Samples.log_groups ["AWS::Lambda::Function"]))).
Proof.
  assert (LambdaLogGroupRule.match_ Samples.log_groups =
          Ok [mkRuleMatch ["Resources"; "Other"]
                          "Function Other does not have a corresponding log group"])
    as H by reflexivity.
  split; [exact H |].
  exact (log_group_violations Samples.log_groups H).
Defined.

Lemma scan_log_group_at_most_one (lg : dict) (l : list string) :
  LambdaLogGroupRule.scan_log_group [] lg = Ok l -> List.length l <= 1.
Proof.
  unfold LambdaLogGroupRule.scan_log_group.
  destruct (py_in _ _) as [[|] | e]; cbn [bind negb]; try discriminate.
  2:{ intros H. injection H as <-. cbn. lia. }
  destruct (py_get _ _ _) as [n | e]; cbn [bind]; [| discriminate].
  destruct (if negb (is_dict n) then _ else _) as [[|] | e]; cbn [bind];
    try discriminate.
  { intros H. injection H as <-. cbn. lia. }
  destruct (py_getitem n "Fn::Sub") as [sub | e]; cbn [bind]; [| discriminate].
  destruct (re_search sub) as [[f |] | e]; cbn [bind]; try discriminate;
    intros H; injection H as <-; cbn; lia.
Qed.

Lemma concat_length_bound {A B} (step : A -> result (list B)) (xs : list A)
      (ls : list (list B)) :
  Forall2 (fun x l => step x = Ok l) xs ls ->
  (forall x l, step x = Ok l -> List.length l <= 1) ->
  List.length (List.concat ls) <= List.length xs.
Proof.
  induction 1 as [| x l xs ls Hl HF IH]; intros Hone; [cbn; lia |].
  cbn [List.concat List.length]. rewrite length_app.
  specialize (IH Hone). specialize (Hone x l Hl). lia.
Qed.

(** X6.  A log group stands for at most one function: when
    LambdaLogGroupRule.match returns, the functions it lets pass are no
    more than the log groups of the template, so at least
    (functions - log groups) functions are reported. *)
Theorem log_group_one_function_each (cfn : Template) (ms : list RuleMatch) :
  unique_keys (Resources cfn) ->
  LambdaLogGroupRule.match_ cfn = Ok ms ->
  List.length (get_resources cfn ["AWS::Lambda::Function"]) <=
  List.length ms + List.length (get_resources cfn ["AWS::Logs::LogGroup"]).
Proof.
  intros Hu H. destruct (log_group_result cfn H) as (known & Ek & ->).
  clear H.
  apply (for_each_appending scan_log_group_appending) in Ek as (ls & HF & Hknown).
  cbn [app] in Hknown.
  pose proof (@concat_length_bound _ _ _ _ _ HF scan_log_group_at_most_one) as Hk.
  rewrite length_map, <- Hknown in Hk.
  pose proof (@select_resources_NoDup (Resources cfn) ["AWS::Lambda::Function"] Hu)
    as Hnd.
  fold (get_resources cfn ["AWS::Lambda::Function"]) in Hnd.
  set (fs := map fst (get_resources cfn ["AWS::Lambda::Function"])) in *.
  assert (List.length (filter (fun f => str_in f known) fs) <= List.length known)
    as Hin.
  { apply NoDup_incl_length; [now apply NoDup_filter |].
    intros f Hf. apply filter_In in Hf as [_ Hf]. now apply str_in_iff. }
  pose proof (filter_length (fun f => str_in f known) fs) as Hsplit.
  rewrite length_map.
  replace (List.length (get_resources cfn ["AWS::Lambda::Function"]))
    with (List.length fs) by (unfold fs; apply length_map).
  lia.
Qed.

Lemma log_group_one_function_each_witness :
  unique_keys (Resources Samples.log_groups) /\
  LambdaLogGroupRule.match_ Samples.log_groups =
  Ok [mkRuleMatch ["Resources"; "Other"]
                  "Function Other does not have a corresponding log group"] /\
  List.length (get_resources Samples.log_groups ["AWS::Lambda::Function"]) <=
  List.length [mkRuleMatch ["Resources"; "Other"]
                 "Function Other does not have a corresponding log group"]
  + List.length (get_resources Samples.log_groups ["AWS::Logs::LogGroup"]).
Proof.
  assert (unique_keys (Resources Samples.log_groups)) as Hu by solve_unique_keys.
  assert (LambdaLogGroupRule.match_ Samples.log_groups =
          Ok [mkRuleMatch ["Resources"; "Other"]
                          "Function Other does not have a corresponding log group"])
    as H by reflexivity.
  split; [exact Hu | split; [exact H |]].
  exact (log_group_one_function_each Samples.log_groups Hu H).
Defined.

Lemma until_brace_found (f post : string) :
  has_char "}"%char f = false ->
  until_brace (f ++ String "}"%char post)%string = Some f.
Proof.
  induction f as [| c f IH]; cbn [String.append until_brace].
  - intros _. reflexivity.
  - unfold has_char. cbn [list_ascii_of_string existsb]. intros H.
    apply orb_false_elim in H as [Hc Hf].
    rewrite Ascii.eqb_sym, Hc. fold (has_char "}"%char f) in Hf.
    now rewrite (IH Hf).
Qed.

(** A name of the form [pre${f}post] with no dollar sign in [pre] names
    [f]. *)
Lemma search_func_found (pre f post : string) :
  has_char "$"%char pre = false ->
  f <> EmptyString ->
  has_char "}"%char f = false ->
  search_func (pre ++ "${" ++ f ++ String "}"%char post)%string = Some f.
Proof.
  intros Hpre Hf Hno. induction pre as [| c pre IH].
  - cbn [String.append search_func match_here].
    rewrite (@until_brace_found f post Hno).
    destruct f; [contradiction | reflexivity].
  - unfold has_char in Hpre. cbn [list_ascii_of_string existsb] in Hpre.
    apply orb_false_elim in Hpre as [Hc Hpre]. fold (has_char "$"%char pre) in Hpre.
    specialize (IH Hpre).
    set (rest := (pre ++ "${" ++ f ++ String "}"%char post)%string) in *.
    change (search_func (String c rest) = Some f). cbn [search_func].
    destruct (match_here (String c rest)) as [g |] eqn:Eh.
    + destruct (match_here_spec _ Eh) as (_ & _ & post' & Hs).
      cbn [String.append] in Hs. injection Hs as -> _.
      discriminate.
    + exact IH.
Qed.

(** X7.  When LambdaLogGroupRule.match returns, a function [f] is not
    reported as soon as some log group has a LogGroupName mapping whose
    "Fn::Sub" string reads [pre${f}post] with no dollar sign in [pre]: the
    usual "/aws/lambda/${Function}" covers Function. *)
Theorem log_group_covers (cfn : Template) (key : string) (lg p n : dict)
        (pre f post : string) :
  ~ raises (LambdaLogGroupRule.match_ cfn) ->
  In (key, lg) (get_resources cfn ["AWS::Logs::LogGroup"]) ->
  dict_lookup "Properties" lg = Some (VDict p) ->
  dict_lookup "LogGroupName" p = Some (VDict n) ->
  dict_lookup "Fn::Sub" n =
    Some (VStr (pre ++ "${" ++ f ++ String "}"%char post)%string) ->
  has_char "$"%char pre = false ->
  f <> EmptyString ->
  has_char "}"%char f = false ->
  ~ reports (LambdaLogGroupRule.match_ cfn) ["Resources"; f].
Proof.
  intros Hr Hin Hp Hn Hs Hpre Hf Hno.
  destruct (LambdaLogGroupRule.match_ cfn) as [ms | e] eqn:E; [| now destruct Hr].
  destruct (log_group_result cfn E) as (known & Ek & ->).
  assert (In f known) as Hknown.
  { apply (log_group_known cfn Ek). exists key, lg. split; [exact Hin |].
    exists p, n, (pre ++ "${" ++ f ++ String "}"%char post)%string.
    repeat split; try assumption. now apply search_func_found. }
  unfold reports. rewrite map_map. cbn [path]. intros H.
  apply in_map_iff in H as (g & Hg & Hgin). injection Hg as ->.
  apply filter_In in Hgin as [_ Hgin].
  apply str_in_iff in Hknown. rewrite Hknown in Hgin. discriminate.
Qed.

Lemma log_group_covers_witness :
  ~ raises (LambdaLogGroupRule.match_ Samples.log_groups) /\
  ~ reports (LambdaLogGroupRule.match_ Samples.log_groups) ["Resources"; "Fn"].
Proof.
  assert (~ raises (LambdaLogGroupRule.match_ Samples.log_groups)) as Hr
      by (vm_compute; tauto).
  split; [exact Hr |].
  apply (@log_group_covers Samples.log_groups "FnLogs"
           [("Type", VStr "AWS::Logs::LogGroup");
            ("Properties",
             VDict [("LogGroupName", VDict [("Fn::Sub", VStr "/aws/lambda/${Fn}")])])]
           [("LogGroupName", VDict [("Fn::Sub", VStr "/aws/lambda/${Fn}")])]
           [("Fn::Sub", VStr "/aws/lambda/${Fn}")]
           "/aws/lambda/" "Fn" "" Hr).
  - cbn. now left.
  - reflexivity.
  - reflexivity.
  - reflexivity.
  - reflexivity.
  - discriminate.
  - reflexivity.
Defined.

(** X8.  LambdaLogGroupRule.match returns, without raising, on every
    template in which each AWS::Logs::LogGroup resource has a Properties
    mapping and each "Fn::Sub" under a mapping LogGroupName is a string; a
    missing LogGroupName, a LogGroupName that is no mapping and a mapping
    without "Fn::Sub" are passed over. *)
Theorem log_group_well_formed_returns (cfn : Template) :
  (forall key lg,
      In (key, lg) (get_resources cfn ["AWS::Logs::LogGroup"]) ->
      exists p, dict_lookup "Properties" lg = Some (VDict p) /\
                forall n v, dict_lookup "LogGroupName" p = Some (VDict n) ->
                            dict_lookup "Fn::Sub" n = Some v ->
                            exists s, v = VStr s) ->
  exists ms, LambdaLogGroupRule.match_ cfn = Ok ms.
Proof.
  intros H. pose proof (log_group_returns cfn H) as Hr.
  destruct (LambdaLogGroupRule.match_ cfn) as [ms | e]; [eauto | now destruct Hr].
Qed.

Lemma log_group_well_formed_returns_witness :
  (forall key lg,
      In (key, lg) (get_resources Samples.log_groups ["AWS::Logs::LogGroup"]) ->
      exists p, dict_lookup "Properties" lg = Some (VDict p) /\
                forall n v, dict_lookup "LogGroupName" p = Some (VDict n) ->
                            dict_lookup "Fn::Sub" n = Some v ->
                            exists s, v = VStr s) /\
  exists ms, LambdaLogGroupRule.match_ Samples.log_groups = Ok ms.
Proof.
  assert (forall key lg,
      In (key, lg) (get_resources Samples.log_groups ["AWS::Logs::LogGroup"]) ->
      exists p, dict_lookup "Properties" lg = Some (VDict p) /\
                forall n v, dict_lookup "LogGroupName" p = Some (VDict n) ->
                            dict_lookup "Fn::Sub" n = Some v ->
                            exists s, v = VStr s) as H.
  { intros key lg Hin. cbn in Hin.
    destruct Hin as [Hin | [Hin | []]]; injection Hin as <- <-.
    - eexists. split; [reflexivity |]. intros n v Hn Hv.
      cbn in Hn. injection Hn as <-. cbn in Hv. injection Hv as <-. eauto.
    - eexists. split; [reflexivity |]. intros n v Hn. cbn in Hn. discriminate. }
  split; [exact H |].
  exact (log_group_well_formed_returns Samples.log_groups H).
Defined.

(** ** LambdaRuleInvokeConfig: when it returns and how often it reports *)



Lemma get_att_found (t a : dict) (g x : value) :
  dict_lookup "Arn" t = Some (VDict a) ->
  dict_lookup "Fn::GetAtt" a = Some g ->
  py_getitem0 g = Ok x ->
  LambdaRuleInvokeConfig.get_att (VDict t) = Ok g /\ is_None g = false.
Proof.
  intros Ha Hg Hx. unfold LambdaRuleInvokeConfig.get_att.
  cbn [py_get bind]. unfold dict_get. rewrite Ha. cbn [py_get bind].
  unfold dict_get. rewrite Hg.
  split; [reflexivity |]. destruct g; try reflexivity. discriminate.
Qed.

(** A target that invokes a function nobody covers adds its record. *)
Lemma scan_target_offending (fn : list string) (icf : list value) (key : string)
      (target : value) (f : string) :
  target_get_att target (VStr f) ->
  In f fn ->
  ~ In (VStr f) icf ->
  LambdaRuleInvokeConfig.scan_target fn icf key [] target =
  Ok [mkRuleMatch ["Resources"; key]
                  (format LambdaRuleInvokeConfig._message [key])].
Proof.
  intros Hatt Hfn Hno.
  pose proof (proj2 (get_att0_Ok target (VStr f)) Hatt) as H0.
  destruct Hatt as (t & a & g & -> & Ha & Hg & Hx).
  destruct (@get_att_found t a g _ Ha Hg Hx) as [Hget Hnone].
  unfold LambdaRuleInvokeConfig.scan_target.
  rewrite Hget. cbn [bind]. rewrite Hnone, H0. cbn [bind py_in_keys].
  apply str_in_iff in Hfn. rewrite Hfn. cbn [negb bind].
  destruct (py_in_list (VStr f) icf) eqn:Ei; [| reflexivity].
  apply py_in_list_str in Ei. contradiction.
Qed.

Lemma for_each_singletons {A B} (body : list B -> A -> result (list B))
      (g : A -> B) (xs : list A) :
  appending body ->
  (forall x, In x xs -> body [] x = Ok [g x]) ->
  for_each xs body [] = Ok (map g xs).
Proof.
  intros Hb. induction xs as [| x xs IH]; intros H; cbn [for_each map];
    [reflexivity |].
  rewrite (H x (or_introl eq_refl)). cbn [bind].
  rewrite (for_each_shift Hb), IH by (intros y Hy; apply H; now right).
  reflexivity.
Qed.

Lemma count_all_same (p : list string) (l : list RuleMatch) :
  (forall m, In m l -> path m = p) ->
  count_occ (list_eq_dec string_dec) (map path l) p = List.length l.
Proof.
  induction l as [| m l IH]; intros H; [reflexivity |].
  cbn [map List.length]. rewrite (H m (or_introl eq_refl)), count_occ_cons_eq by reflexivity.
  rewrite IH by (intros m' Hm'; apply H; now right). reflexivity.
Qed.

Lemma count_all_other (p : list string) (l : list RuleMatch) :
  (forall m, In m l -> path m <> p) ->
  count_occ (list_eq_dec string_dec) (map path l) p = 0.
Proof.
  induction l as [| m l IH]; intros H; [reflexivity |].
  cbn [map]. rewrite count_occ_cons_neq by (apply H; now left).
  apply IH. intros m' Hm'. apply H. now right.
Qed.

(** With unique keys, the records with the path of one resource are those
    its own turn of the loop added. *)
Lemma count_own_records (step : string * dict -> result (list RuleMatch))
      (xs : list (string * dict)) (ls : list (list RuleMatch))
      (key : string) (resource : dict) (l0 : list RuleMatch) :
  Forall2 (fun x l => step x = Ok l) xs ls ->
  (forall k r l, step (k, r) = Ok l ->
                 forall m, In m l -> path m = ["Resources"; k]) ->
  NoDup (map fst xs) ->
  In (key, resource) xs ->
  step (key, resource) = Ok l0 ->
  count_occ (list_eq_dec string_dec) (map path (List.concat ls)) ["Resources"; key]
  = List.length l0.
Proof.
  intros HF Hpaths. revert l0.
  induction HF as [| [k r] l xs ls Hl HF IH]; intros l0 Hnd Hin Hstep;
    [destruct Hin |].
  cbn [map fst] in Hnd. inversion Hnd as [| ? ? Hk Hnd']; subst.
  cbn [List.concat]. rewrite map_app, count_occ_app.
  destruct Hin as [Hin | Hin].
  - injection Hin as -> ->. rewrite Hl in Hstep. injection Hstep as ->.
    rewrite count_all_same by (exact (Hpaths key resource l0 Hl)).
    assert (count_occ (list_eq_dec string_dec) (map path (List.concat ls))
                      ["Resources"; key] = 0) as ->; [| lia].
    apply count_all_other. intros m Hm Hp.
    apply in_concat in Hm as (l' & Hl' & Hm).
    destruct (Forall2_In_r _ HF Hl') as ([k' r'] & Hx & Hs).
    rewrite (Hpaths k' r' l' Hs m Hm) in Hp. injection Hp as ->.
    apply Hk. apply in_map_iff. now exists (key, r').
  - rewrite (IH l0 Hnd' Hin Hstep).
    assert (k <> key) as Hne.
    { intros ->. apply Hk. apply in_map_iff. now exists (key, resource). }
    rewrite count_all_other; [reflexivity |].
    intros m Hm Hp. rewrite (Hpaths k r l Hl m Hm) in Hp. injection Hp as ->.
    now apply Hne.
Qed.

(** X12.  LambdaRuleInvokeConfig.match reports a rule once for every
    offending target, not once per rule: when the call returns and every
    target of the rule invokes, by Fn::GetAtt, a function of the template
    that no invoke config with OnFailure destination refers to, the list
    holds as many records with path ["Resources", key] as the rule has
    targets. *)
Theorem invoke_config_once_per_target (cfn : Template) (key : string)
        (resource p : dict) (ts : list value) :
  unique_keys (Resources cfn) ->
  ~ raises (LambdaRuleInvokeConfig.match_ cfn) ->
  In (key, resource) (get_resources cfn ["AWS::Events::Rule"]) ->
  dict_lookup "Properties" resource = Some (VDict p) ->
  dict_lookup "Targets" p = Some (VList ts) ->
  (forall t, In t ts ->
             exists f, target_get_att t (VStr f) /\
                       In f (map fst (get_resources cfn ["AWS::Lambda::Function"])) /\
                       ~ covered_by_invoke_config cfn f) ->
  count_reports (LambdaRuleInvokeConfig.match_ cfn) ["Resources"; key]
  = List.length ts.
Proof.
  intros Hu Hr Hin Hp Hts Hall. unfold count_reports.
  unfold LambdaRuleInvokeConfig.match_ in *. cbv zeta in *.
  destruct (for_each (map snd _) _ _) as [icf | e] eqn:Ei; [| now destruct Hr].
  cbn [bind] in *.
  pose proof (invoke_config_functions_Ok cfn Ei) as Hicf.
  destruct (for_each _ (LambdaRuleInvokeConfig.scan_rule _ _) _)
    as [ms | e] eqn:Em; [| now destruct Hr].
  set (fn := map fst (get_resources cfn ["AWS::Lambda::Function"])) in *.
  apply (for_each_appending (scan_rule_appending fn icf)) in Em as (ls & HF & ->).
  cbn [app].
  assert (LambdaRuleInvokeConfig.scan_rule fn icf [] (key, resource) =
          Ok (map (fun _ : value =>
                     mkRuleMatch ["Resources"; key]
                                 (format LambdaRuleInvokeConfig._message [key]))
                  ts)) as Hstep.
  { unfold LambdaRuleInvokeConfig.scan_rule, LambdaRuleInvokeConfig.targets_of.
    cbn [py_get bind]. unfold dict_get. rewrite Hp. cbn [py_get bind].
    unfold dict_get. rewrite Hts. cbn [py_iter bind].
    apply for_each_singletons; [apply scan_target_appending |].
    intros t Ht. destruct (Hall t Ht) as (f & Hatt & Hfn & Hno).
    apply (@scan_target_offending fn icf key t f Hatt Hfn).
    now rewrite Hicf. }
  eapply eq_trans;
    [ eapply (@count_own_records (LambdaRuleInvokeConfig.scan_rule fn icf []));
      [ exact HF
      | intros k r l Hl; exact (scan_rule_paths _ _ _ _ Hl)
      | apply select_resources_NoDup; exact Hu
      | exact Hin
      | exact Hstep ]
    | now rewrite length_map ].
Qed.

Lemma invoke_config_once_per_target_witness :
  unique_keys (Resources Samples.fan_out) /\
  ~ raises (LambdaRuleInvokeConfig.match_ Samples.fan_out) /\
  count_reports (LambdaRuleInvokeConfig.match_ Samples.fan_out)
                ["Resources"; "OnOrder"] = 2.
Proof.
  assert (unique_keys (Resources Samples.fan_out)) as Hu by solve_unique_keys.
  assert (~ raises (LambdaRuleInvokeConfig.match_ Samples.fan_out)) as Hr
      by (vm_compute; tauto).
  split; [exact Hu | split; [exact Hr |]].
  apply (@invoke_config_once_per_target Samples.fan_out "OnOrder"
           [("Type", VStr "AWS::Events::Rule");
            ("Properties",
             VDict [("Targets",
                     VList [VDict [("Arn", Samples.get_att "Fn"); ("Id", VStr "fn")];
                            VDict [("Arn", Samples.get_att "Other");
                                   ("Id", VStr "other")]])])]
           [("Targets",
             VList [VDict [("Arn", Samples.get_att "Fn"); ("Id", VStr "fn")];
                    VDict [("Arn", Samples.get_att "Other"); ("Id", VStr "other")]])]
           [VDict [("Arn", Samples.get_att "Fn"); ("Id", VStr "fn")];
            VDict [("Arn", Samples.get_att "Other"); ("Id", VStr "other")]]
           Hu Hr).
  - cbn. now left.
  - reflexivity.
  - reflexivity.
  - intros t [<- | [<- | []]].
    + exists "Fn". split; [| split].
      * do 3 eexists. split; [reflexivity |]. split; [reflexivity |].
        split; reflexivity.
      * cbn. now left.
      * intros (k & ic & Hic & _). destruct Hic.
    + exists "Other". split; [| split].
      * do 3 eexists. split; [reflexivity |]. split; [reflexivity |].
        split; reflexivity.
      * cbn. right. now left.
      * intros (k & ic & Hic & _). destruct Hic.
Defined.

(** ** What every rule reports *)

Lemma has_type_single (ty : string) (resource : dict) :
  has_type [ty] resource = true -> dict_lookup "Type" resource = Some (VStr ty).
Proof.
  unfold has_type, py_in_list. cbn [map existsb]. rewrite orb_false_r.
  intros H. apply py_eq_str_r in H. unfold dict_get in H.
  destruct (dict_lookup "Type" resource) as [v |]; [now subst | discriminate].
Qed.

Lemma get_resources_typed (cfn : Template) (ty key : string) (resource : dict) :
  In (key, resource) (get_resources cfn [ty]) ->
  In (key, VDict resource) (Resources cfn) /\
  dict_lookup "Type" resource = Some (VStr ty).
Proof.
  intros H. apply select_resources_In in H as [Hin Hty].
  split; [exact Hin | now apply has_type_single].
Qed.

(** X10.  A rule only reports resources of the type it asks the template
    for: a record with path ["Resources", key] returned by Python38Rule or
    LambdaLogGroupRule names an AWS::Lambda::Function, one returned by
    LambdaESMDestinationConfig an AWS::Lambda::EventSourceMapping, one
    returned by LambdaRuleInvokeConfig an AWS::Events::Rule (never the
    function or the invoke config behind it), and MandatoryParametersRule
    returns no such record. *)
Theorem reports_own_type (r : rule) (cfn : Template) (h : heap) (key : string) :
  reports (fst (run r cfn h)) ["Resources"; key] ->
  exists ty resource,
    reported_type r = Some ty /\
    In (key, VDict resource) (Resources cfn) /\
    dict_lookup "Type" resource = Some (VStr ty).
Proof.
  unfold reports. destruct (fst (run r cfn h)) as [ms | e] eqn:E; [| intros []].
  intros H. apply in_map_iff in H as (m & Hp & Hm).
  destruct r; cbn [run fst] in E.
  - unfold MandatoryParametersRule.match_, deepcopy, heap_alloc in E.
    cbn [fst] in E. injection E as <-.
    apply in_map_iff in Hm as (param & <- & _). discriminate.
  - unfold Python38Rule.match_ in E.
    apply (for_each_In _ m python38_body_appending E) in Hm
      as ([k val] & l & Hin & Hl & Hml).
    rewrite (python38_step_paths _ _ Hl m Hml) in Hp. injection Hp as ->.
    destruct (get_resources_typed _ _ _ _ Hin) as [Hres Hty].
    exists "AWS::Lambda::Function", val. auto.
  - unfold LambdaLogGroupRule.match_ in E. cbv zeta in E.
    apply bind_Ok_inv in E as (known & _ & E).
    apply (for_each_In _ m (log_group_check_appending known) E) in Hm
      as (f & l & Hin & Hl & Hml).
    rewrite (log_group_step_paths _ _ Hl m Hml) in Hp. injection Hp as ->.
    apply in_map_iff in Hin as ([k val] & <- & Hin).
    destruct (get_resources_typed _ _ _ _ Hin) as [Hres Hty].
    exists "AWS::Lambda::Function", val. auto.
  - unfold LambdaESMDestinationConfig.match_ in E. cbv zeta in E.
    apply (for_each_In _ m esm_body_appending E) in Hm
      as ([k val] & l & Hin & Hl & Hml).
    rewrite (esm_step_paths _ _ Hl m Hml) in Hp. injection Hp as ->.
    destruct (get_resources_typed _ _ _ _ Hin) as [Hres Hty].
    exists "AWS::Lambda::EventSourceMapping", val. auto.
  - unfold LambdaRuleInvokeConfig.match_ in E. cbv zeta in E.
    apply bind_Ok_inv in E as (icf & _ & E).
    apply (for_each_In _ m (scan_rule_appending _ icf) E) in Hm
      as ([k val] & l & Hin & Hl & Hml).
    rewrite (scan_rule_paths _ _ _ _ Hl m Hml) in Hp. injection Hp as ->.
    destruct (get_resources_typed _ _ _ _ Hin) as [Hres Hty].
    exists "AWS::Events::Rule", val. auto.
Qed.

Lemma reports_own_type_witness :
  reports (fst (run E9004 Samples.invoked MandatoryParametersRule.class_heap))
          ["Resources"; "OnPayment"] /\
  exists ty resource,
    reported_type E9004 = Some ty /\
    In ("OnPayment", VDict resource) (Resources Samples.invoked) /\
    dict_lookup "Type" resource = Some (VStr ty).
Proof.
  assert (reports (fst (run E9004 Samples.invoked MandatoryParametersRule.class_heap))
                  ["Resources"; "OnPayment"]) as H
      by (vm_compute; now left).
  split; [exact H |].
  exact (reports_own_type E9004 Samples.invoked MandatoryParametersRule.class_heap
                          "OnPayment" H).
Defined.

(** ** MandatoryParametersRule for any list of required names *)

Lemma filter_all {A} (f : A -> bool) (l : list A) :
  (forall x, In x l -> f x = true) -> filter f l = l.
Proof.
  induction l as [| x l IH]; intros H; [reflexivity |].
  cbn [filter]. rewrite (H x (or_introl eq_refl)).
  rewrite IH by (intros y Hy; apply H; now right). reflexivity.
Qed.

Lemma filter_twice {A} (f g : A -> bool) (l : list A) :
  filter f (filter g l) = filter (fun x => g x && f x) l.
Proof.
  induction l as [| x l IH]; [reflexivity |].
  cbn [filter]. destruct (g x); cbn [filter andb]; [| exact IH].
  destruct (f x); now rewrite IH.
Qed.

(** On a list without duplicates, [remove] takes the name out. *)
Lemma remove_first_filter (k : string) (l : list string) :
  NoDup l ->
  remove_first k l = filter (fun n => negb (String.eqb n k)) l.
Proof.
  induction 1 as [| y l Hy Hnd IH]; [reflexivity |].
  cbn [remove_first filter]. rewrite (String.eqb_sym y k).
  destruct (String.eqb_spec k y) as [-> | Hne]; cbn [negb].
  - symmetry. apply filter_all. intros x Hx.
    destruct (String.eqb_spec x y) as [-> | _]; [contradiction | reflexivity].
  - now rewrite IH.
Qed.

Lemma remove_loop_filter (ks required : list string) :
  NoDup required ->
  fold_left (fun mp key => if str_in key mp then remove_first key mp else mp)
            ks required
  = filter (fun n => negb (str_in n ks)) required.
Proof.
  revert required. induction ks as [| k ks IH]; intros required Hnd;
    cbn [fold_left].
  - symmetry. apply filter_all. reflexivity.
  - destruct (str_in k required) eqn:Ek.
    + rewrite (remove_first_filter k Hnd).
      rewrite IH by now apply NoDup_filter.
      rewrite filter_twice. apply filter_ext. intros n.
      unfold str_in. cbn [existsb]. now rewrite negb_orb.
    + rewrite (IH required Hnd). apply filter_ext_in. intros n Hn.
      unfold str_in at 2. cbn [existsb].
      destruct (String.eqb_spec n k) as [-> | _]; [| reflexivity].
      apply str_in_iff in Hn. congruence.
Qed.

(** X11.  Whatever duplicate-free list of names the class attribute
    [_mandatory_parameters] holds, MandatoryParametersRule.match returns,
    in the order of that list, one record per name that is not a key of the
    template's Parameters, with path ["Parameters"] and the message
    "Missing parameter '<name>'". *)
Theorem mandatory_parameters_any_list (cfn : Template) (required : list string)
        (h : heap) :
  NoDup required ->
  fst (MandatoryParametersRule.match_ cfn (required :: h)) =
  Ok (map (fun name =>
             mkRuleMatch ["Parameters"]
                         ("Missing parameter '" ++ name ++ "'")%string)
          (filter (fun name => negb (str_in name (keys (Parameters cfn))))
                  required)).
Proof.
  intros Hnd. rewrite mandatory_match_unfold. cbv zeta. cbn [fst].
  unfold get_parameters. rewrite (remove_loop_filter _ Hnd). reflexivity.
Qed.

Lemma mandatory_parameters_any_list_witness :
  NoDup ["Environment"; "Owner"] /\
  fst (MandatoryParametersRule.match_ Samples.with_environment
         (["Environment"; "Owner"] :: [])) =
  Ok (map (fun name =>
             mkRuleMatch ["Parameters"]
                         ("Missing parameter '" ++ name ++ "'")%string)
          (filter (fun name =>
                     negb (str_in name (keys (Parameters Samples.with_environment))))
                  ["Environment"; "Owner"])).
Proof.
  assert (NoDup ["Environment"; "Owner"]) as Hnd.
  { repeat constructor; cbn; intuition discriminate. }
  split; [exact Hnd |].
  exact (mandatory_parameters_any_list Samples.with_environment [] Hnd).
Defined.

(** ** Inputs on which a rule raises *)

(** X13.  A single AWS::Logs::LogGroup resource whose Properties are absent
    or null makes LambdaLogGroupRule.match raise, whatever else the
    template holds: the membership test on [resource.get("Properties")]
    has no default to fall back on. *)
Theorem log_group_without_properties_raises (cfn : Template) (key : string)
        (lg : dict) :
  In (key, lg) (get_resources cfn ["AWS::Logs::LogGroup"]) ->
  dict_get lg "Properties" VNone = VNone ->
  raises (LambdaLogGroupRule.match_ cfn).
Proof.
  intros Hin Hp.
  destruct (LambdaLogGroupRule.match_ cfn) as [ms | e] eqn:E; [| exact I].
  unfold LambdaLogGroupRule.match_ in E. cbv zeta in E.
  apply bind_Ok_inv in E as (known & Ek & _).
  assert (In lg (map snd (get_resources cfn ["AWS::Logs::LogGroup"]))) as Hlg
      by (apply in_map_iff; now exists (key, lg)).
  destruct (for_each_all_Ok _ _ scan_log_group_appending Ek Hlg) as (l & Hl).
  unfold LambdaLogGroupRule.scan_log_group in Hl. rewrite Hp in Hl. discriminate.
Qed.

Lemma log_group_without_properties_raises_witness :
  raises (LambdaLogGroupRule.match_ Samples.bare_log_group).
Proof.
  apply (@log_group_without_properties_raises Samples.bare_log_group "Logs"
           [("Type", VStr "AWS::Logs::LogGroup")]).
  - cbn. right. now left.
  - reflexivity.
Defined.

(** X14.  A single target whose Arn is present and not a mapping (a literal
    ARN string, say) makes LambdaRuleInvokeConfig.match raise, whatever
    else the template holds: the default of [target.get("Arn", {})] only
    stands in for a missing Arn. *)
Theorem literal_arn_target_raises (cfn : Template) (key : string)
        (resource p : dict) (ts : list value) (t : dict) :
  In (key, resource) (get_resources cfn ["AWS::Events::Rule"]) ->
  dict_lookup "Properties" resource = Some (VDict p) ->
  dict_lookup "Targets" p = Some (VList ts) ->
  In (VDict t) ts ->
  not_a_mapping t "Arn" ->
  raises (LambdaRuleInvokeConfig.match_ cfn).
Proof.
  intros Hin Hp Hts Ht (a & Ha & Hnd).
  destruct (LambdaRuleInvokeConfig.match_ cfn) as [ms | e] eqn:E; [| exact I].
  unfold LambdaRuleInvokeConfig.match_ in E. cbv zeta in E.
  apply bind_Ok_inv in E as (icf & _ & E).
  destruct (for_each_all_Ok _ _ (scan_rule_appending _ icf) E Hin) as (l & Hl).
  unfold LambdaRuleInvokeConfig.scan_rule, LambdaRuleInvokeConfig.targets_of in Hl.
  cbn [py_get bind] in Hl. unfold dict_get in Hl. rewrite Hp in Hl.
  cbn [py_get bind] in Hl. unfold dict_get in Hl. rewrite Hts in Hl.
  cbn [py_iter bind] in Hl.
  destruct (for_each_all_Ok _ _ (scan_target_appending _ icf key) Hl Ht)
    as (l' & Hl').
  unfold LambdaRuleInvokeConfig.scan_target, LambdaRuleInvokeConfig.get_att in Hl'.
  cbn [py_get bind] in Hl'. unfold dict_get in Hl'. rewrite Ha in Hl'.
  destruct a; try discriminate.
Qed.

Lemma literal_arn_target_raises_witness :
  raises (LambdaRuleInvokeConfig.match_ Samples.literal_arn).
Proof.
  apply (@literal_arn_target_raises Samples.literal_arn "OnOrder"
           [("Type", VStr "AWS::Events::Rule");
            ("Properties",
             VDict [("Targets",
                     VList [VDict [("Arn", VStr "arn:aws:sqs:eu-west-1:123456789012:orders");
                                   ("Id", VStr "queue")]])])]
           [("Targets",
             VList [VDict [("Arn", VStr "arn:aws:sqs:eu-west-1:123456789012:orders");
                           ("Id", VStr "queue")]])]
           [VDict [("Arn", VStr "arn:aws:sqs:eu-west-1:123456789012:orders");
                   ("Id", VStr "queue")]]
           [("Arn", VStr "arn:aws:sqs:eu-west-1:123456789012:orders");
            ("Id", VStr "queue")]).
  - cbn. now left.
  - reflexivity.
  - reflexivity.
  - now left.
  - eexists. split; reflexivity.
Defined.

(** X15.  A single AWS::Lambda::EventInvokeConfig resource that has an
    OnFailure destination but whose FunctionName is not a mapping with a
    "Ref" makes LambdaRuleInvokeConfig.match raise, whatever else the
    template holds, even without any rule. *)
Theorem invoke_config_without_ref_raises (cfn : Template) (key : string)
        (ic : dict) :
  In (key, ic) (get_resources cfn ["AWS::Lambda::EventInvokeConfig"]) ->
  has_on_failure ic ->
  (forall x, ~ function_ref ic x) ->
  raises (LambdaRuleInvokeConfig.match_ cfn).
Proof.
  intros Hin Hon Hno.
  destruct (LambdaRuleInvokeConfig.match_ cfn) as [ms | e] eqn:E; [| exact I].
  unfold LambdaRuleInvokeConfig.match_ in E. cbv zeta in E.
  apply bind_Ok_inv in E as (icf & Ei & _).
  assert (In ic (map snd (get_resources cfn ["AWS::Lambda::EventInvokeConfig"])))
    as Hic by (apply in_map_iff; now exists (key, ic)).
  destruct (for_each_all_Ok _ _ scan_invoke_config_appending Ei Hic) as (l & Hl).
  pose proof (scan_invoke_config_Ok _ Hl) as Hspec.
  unfold LambdaRuleInvokeConfig.scan_invoke_config in Hl.
  destruct (on_failure ic) as [v | e] eqn:Ev; [| discriminate].
  cbn [bind] in Hl. destruct (is_None v) eqn:En.
  - apply is_None_iff in En. now apply (on_failure_None _ Ev) in En.
  - apply bind_Ok_inv in Hl as (q & _ & Hl).
    apply bind_Ok_inv in Hl as (n & _ & Hl).
    apply bind_Ok_inv in Hl as (r & _ & Hl). injection Hl as <-.
    apply (Hno r). apply Hspec. now left.
Qed.

Lemma invoke_config_without_ref_raises_witness :
  raises (LambdaRuleInvokeConfig.match_ Samples.literal_function_name).
Proof.
  apply (@invoke_config_without_ref_raises Samples.literal_function_name "FnConfig"
           [("Type", VStr "AWS::Lambda::EventInvokeConfig");
            ("Properties",
             VDict [("FunctionName", VStr "orders-fn");
                    ("DestinationConfig",
                     VDict [("OnFailure",
                             VDict [("Destination", Samples.get_att "DeadLetterQueue")])])])]).
  - cbn. now left.
  - do 3 eexists. split; [reflexivity |]. split; [reflexivity |].
    split; [reflexivity | discriminate].
  - intros x (q & n & Hq & Hn & _). cbn in Hq. injection Hq as <-.
    cbn in Hn. discriminate.
Defined.
